(** * cuml.preprocessing.LabelEncoder: ordinal label encoding

    A shallow embedding of [python/cuml/preprocessing/LabelEncoder.py]
    and of the collaborators it calls (Python's [str] on integers, the
    [nvstrings] column operations, the [nvcategory] dictionary engine and
    the [cudf.Series] container), followed by the properties of the
    encoder.

    Python keeps every assignment made before an exception is raised, so
    the methods run in a monad that threads the encoder through both
    outcomes: a raised exception comes back together with the state the
    encoder was left in. *)

From Stdlib Require Import List ZArith NArith Bool Lia Ascii String.
From Stdlib Require Import Sorted OrdersEx RelationClasses.
Import ListNotations.

Local Open Scope string_scope.
Local Open Scope Z_scope.
Local Open Scope list_scope.

(* ================================================================== *)
(** * Python's [str] on integers, and the string to integer cast       *)
(* ================================================================== *)

Module PyStr.

(** The character of a decimal digit [d < 10]. *)
Definition digit_char (d : N) : ascii := ascii_of_N (48 + d).

Definition is_digit (c : ascii) : bool :=
  ((48 <=? N_of_ascii c) && (N_of_ascii c <=? 57))%N.

(** Does the string contain a decimal digit? *)
Fixpoint has_digit (s : string) : bool :=
  match s with
  | EmptyString => false
  | String c s' => is_digit c || has_digit s'
  end.

(** Decimal digits of [n], most significant first.  [fuel] bounds the
    number of divisions; [str_N] gives enough of it. *)
Fixpoint str_digits (fuel : nat) (n : N) : string :=
  let last := String (digit_char (n mod 10)) EmptyString in
  match fuel with
  | O => last
  | S f =>
      if (n <? 10)%N then last
      else String.append (str_digits f (n / 10)) last
  end.

Definition str_N (n : N) : string := str_digits (N.size_nat n) n.

(** [str(z)] for a Python or numpy integer. *)
Definition str_int (z : Z) : string :=
  if z <? 0 then String "-"%char (str_N (Z.to_N (- z)))
  else str_N (Z.to_N z).

(** [nvstrings.stoi]: the leading run of digits read as a number, after
    an optional minus sign. *)
Fixpoint stoi_digits (s : string) (acc : N) : N :=
  match s with
  | EmptyString => acc
  | String c s' =>
      if is_digit c
      then stoi_digits s' (10 * acc + (N_of_ascii c - 48))%N
      else acc
  end.

Definition stoi (s : string) : Z :=
  match s with
  | String c s' =>
      if Ascii.eqb c "-"%char then - Z.of_N (stoi_digits s' 0)
      else Z.of_N (stoi_digits s 0)
  | EmptyString => 0
  end.

End PyStr.

(* ================================================================== *)
(** * nvstrings: a column of strings                                   *)
(* ================================================================== *)

Module nvstrings.

Definition t := list string.

(** One string of the column: every occurrence of [pat], scanning left
    to right without overlap, is replaced by [repl].  [skip] counts the
    characters of a matched occurrence still to be dropped. *)
Fixpoint replace_from (pat repl : string) (skip : nat) (s : string)
  : string :=
  match s with
  | EmptyString => EmptyString
  | String c s' =>
      match skip with
      | S k => replace_from pat repl k s'
      | O =>
          if String.prefix pat s
          then String.append repl
                 (replace_from pat repl (String.length pat - 1) s')
          else String c (replace_from pat repl O s')
      end
  end.

(** The encoder only ever passes the decimal text of a code as the
    pattern: a run of digits, which reads the same as a regular
    expression (the default of [replace]) and as plain text, and is
    never empty.  An empty pattern leaves the string as it is. *)
Definition replace1 (pat repl s : string) : string :=
  match pat with
  | EmptyString => s
  | _ => replace_from pat repl O s
  end.

(** [strs.replace(pat, repl)] *)
Definition replace (strs : t) (pat repl : string) : t :=
  map (replace1 pat repl) strs.

Definition size (strs : t) : nat := List.length strs.

End nvstrings.

(* ================================================================== *)
(** * nvcategory: the dictionary engine                                *)
(* ================================================================== *)

Section SortUnique.

Context {A : Type} (cmp : A -> A -> comparison).

(** Insertion into a strictly increasing list, dropping a duplicate. *)
Fixpoint insert_unique (x : A) (l : list A) : list A :=
  match l with
  | [] => [x]
  | k :: l' =>
      match cmp x k with
      | Lt => x :: l
      | Eq => l
      | Gt => k :: insert_unique x l'
      end
  end.

Definition sort_unique (l : list A) : list A :=
  fold_right insert_unique [] l.

End SortUnique.

Definition desc_Z (a b : Z) : comparison := Z.compare b a.

Definition desc_string (a b : string) : comparison :=
  String_as_OT.compare b a.

Module nvcategory.

(** A category holds its keys, unique and in increasing byte order,
    and for each string it was built from the position of that string
    among the keys. *)
Record t := mk { cat_keys : list string; cat_values : list Z }.

Definition sorted_keys (strs : list string) : list string :=
  sort_unique String_as_OT.compare strs.

(** Position of [s] in [ks], or the sentinel [-1]. *)
Fixpoint key_index (s : string) (ks : list string) : Z :=
  match ks with
  | [] => -1
  | k :: ks' =>
      if String.eqb s k then 0
      else let i := key_index s ks' in
           if i <? 0 then -1 else i + 1
  end.

(** [nvcategory.from_strings(strs)] *)
Definition from_strings (strs : nvstrings.t) : t :=
  let ks := sorted_keys strs in
  mk ks (map (fun s => key_index s ks) strs).

(** [cat.keys()] *)
Definition keys (c : t) : nvstrings.t := cat_keys c.

(** [cat.values()] *)
Definition values (c : t) : list Z := cat_values c.

(** The value a string of the old category gets under the new keys. *)
Definition remap (old_keys new_keys : list string) (v : Z) : Z :=
  if v <? 0 then -1
  else match nth_error old_keys (Z.to_nat v) with
       | Some s => key_index s new_keys
       | None => -1
       end.

(** [cat.set_keys(new_keys)]: the same strings under another key set;
    a string that is not among the new keys gets [-1]. *)
Definition set_keys (c : t) (new_keys : nvstrings.t) : t :=
  let ks := sorted_keys new_keys in
  mk ks (map (remap (cat_keys c) ks) (cat_values c)).

End nvcategory.

(* ================================================================== *)
(** * cudf.Series and the Python values passed to the encoder          *)
(* ================================================================== *)

Inductive int_dtype := int32 | int64.

Inductive dtype := object | numeric (w : int_dtype).

Definition dtype_eqb (a b : dtype) : bool :=
  match a, b with
  | object, object => true
  | numeric int32, numeric int32 => true
  | numeric int64, numeric int64 => true
  | _, _ => false
  end.

(** A Series is a string column (dtype [object]) or a column of
    fixed-width integers. *)
Inductive Series :=
| StrSeries (strs : list string)
| IntSeries (w : int_dtype) (ints : list Z).

(** What iterating a Series yields. *)
Inductive scalar := IntVal (z : Z) | StrVal (s : string).

(** What [ser.data] is: the nvstrings behind a string column, or a device
    buffer of integers. *)
Inductive column := NvStrings (strs : nvstrings.t) | Buffer (ints : list Z).

Module cudf.

Definition dtype_of (s : Series) : dtype :=
  match s with
  | StrSeries _ => object
  | IntSeries w _ => numeric w
  end.

Definition data (s : Series) : column :=
  match s with
  | StrSeries l => NvStrings l
  | IntSeries _ l => Buffer l
  end.

(** [ser.astype('str')] *)
Definition astype_str (s : Series) : Series :=
  match s with
  | StrSeries l => StrSeries l
  | IntSeries _ l => StrSeries (map PyStr.str_int l)
  end.

(** Two's complement wrap-around of the fixed-width integer types. *)
Definition wrap (w : int_dtype) (z : Z) : Z :=
  match w with
  | int32 => (z + 2 ^ 31) mod 2 ^ 32 - 2 ^ 31
  | int64 => (z + 2 ^ 63) mod 2 ^ 64 - 2 ^ 63
  end.

(** [cudf.Series(strs, dtype=dt)] for an nvstrings column: the column
    itself when no numeric dtype is asked for, the strings read as
    integers of that width otherwise. *)
Definition Series_of_strings (strs : nvstrings.t) (dt : option dtype)
  : Series :=
  match dt with
  | Some (numeric w) => IntSeries w (map (fun s => wrap w (PyStr.stoi s)) strs)
  | Some object | None => StrSeries strs
  end.

(** [ser.unique().sort_values(ascending=False)] *)
Definition unique_sorted_desc (s : Series) : Series :=
  match s with
  | StrSeries l =>
      StrSeries (sort_unique desc_string l)
  | IntSeries w l =>
      IntSeries w (sort_unique desc_Z l)
  end.

(** The elements in iteration order. *)
Definition iter (s : Series) : list scalar :=
  match s with
  | StrSeries l => map StrVal l
  | IntSeries _ l => map IntVal l
  end.

(** [x in ser]: membership among the values, through iteration. *)
Definition contains (x : Z) (s : Series) : bool :=
  existsb (fun v => match v with
                    | IntVal z => Z.eqb z x
                    | StrVal _ => false
                    end) (iter s).

End cudf.

(** An object that is not a [cudf.Series]: its class (module and name),
    and the value of its [dtype] attribute when it has one.  Such an
    object has no [data] attribute; one that carries a dtype also
    answers [astype]. *)
Record foreign := mkForeign {
  f_module : string;
  f_name : string;
  f_dtype : option dtype
}.

Inductive pyobj :=
| PySeries (s : Series)
| PyForeign (o : foreign).

(** A plain Python list, which has no [dtype]. *)
Definition py_list : pyobj :=
  PyForeign (mkForeign EmptyString "list" None).

(** [type(y)] as [format] prints it. *)
Definition type_repr (y : pyobj) : string :=
  match y with
  | PySeries _ => "<class 'cudf.dataframe.series.Series'>"
  | PyForeign o =>
      String.append "<class '"
        (String.append
           (if String.eqb (f_module o) EmptyString then f_name o
            else String.append (f_module o) (String.append "." (f_name o)))
           "'>")
  end.

(* ================================================================== *)
(** * Exceptions and the encoder monad                                 *)
(* ================================================================== *)

Inductive exn :=
| RuntimeError (msg : string)
| KeyError (msg : string)
| ValueError (msg : string)
| TypeError (msg : string)
| AttributeError (msg : string)
| IndexError (msg : string).

(** The name of the exception class. *)
Definition exn_class (e : exn) : string :=
  match e with
  | RuntimeError _ => "RuntimeError"
  | KeyError _ => "KeyError"
  | ValueError _ => "ValueError"
  | TypeError _ => "TypeError"
  | AttributeError _ => "AttributeError"
  | IndexError _ => "IndexError"
  end.

Inductive result (A : Type) :=
| Return (a : A)
| Raise (e : exn).
Arguments Return {A} a.
Arguments Raise {A} e.

(** The encoder object: [self._cats], [self._dtype], [self._fitted]. *)
Record LabelEncoder := mkEncoder {
  _cats : option nvcategory.t;
  _dtype : option dtype;
  _fitted : bool
}.

(** Calls into the dictionary and string engines, in the order made. *)
Inductive engine_call :=
| E_from_strings
| E_set_keys
| E_keys
| E_values
| E_replace.

Record world := mkWorld {
  self : LabelEncoder;
  engine_log : list engine_call
}.

Definition M (A : Type) : Type := world -> result A * world.

Definition ret {A} (a : A) : M A := fun w => (Return a, w).

Definition raise {A} (e : exn) : M A := fun w => (Raise e, w).

Definition bind {A B} (m : M A) (k : A -> M B) : M B :=
  fun w =>
    match m w with
    | (Return a, w') => k a w'
    | (Raise e, w') => (Raise e, w')
    end.

Notation "x <- m ;; k" := (bind m (fun x => k))
  (at level 61, m at next level, right associativity).
Notation "m ;; k" := (bind m (fun _ => k))
  (at level 61, right associativity).

Definition get_self : M LabelEncoder := fun w => (Return (self w), w).

Definition set_self (f : LabelEncoder -> LabelEncoder) : M unit :=
  fun w => (Return tt, mkWorld (f (self w)) (engine_log w)).

Definition set_cats (c : nvcategory.t) : M unit :=
  set_self (fun e => mkEncoder (Some c) (_dtype e) (_fitted e)).

Definition set_dtype (d : dtype) : M unit :=
  set_self (fun e => mkEncoder (_cats e) (Some d) (_fitted e)).

Definition set_fitted (b : bool) : M unit :=
  set_self (fun e => mkEncoder (_cats e) (_dtype e) b).

Definition engine (c : engine_call) : M unit :=
  fun w => (Return tt, mkWorld (self w) (engine_log w ++ [c])).

Definition no_attribute (cls attr : string) : exn :=
  AttributeError
    (String.append "'"
       (String.append cls
          (String.append "' object has no attribute '"
             (String.append attr "'")))).

(* ================================================================== *)
(** * Attribute access and operators on the Python values              *)
(* ================================================================== *)

(** [y.dtype] *)
Definition getattr_dtype (y : pyobj) : M dtype :=
  match y with
  | PySeries s => ret (cudf.dtype_of s)
  | PyForeign o =>
      match f_dtype o with
      | Some d => ret d
      | None => raise (no_attribute (f_name o) "dtype")
      end
  end.

(** [y.astype("str")] *)
Definition py_astype_str (y : pyobj) : M pyobj :=
  match y with
  | PySeries s => ret (PySeries (cudf.astype_str s))
  | PyForeign o =>
      match f_dtype o with
      | Some _ =>
          ret (PyForeign (mkForeign (f_module o) (f_name o) (Some object)))
      | None => raise (no_attribute (f_name o) "astype")
      end
  end.

(** [y.data] *)
Definition getattr_data (y : pyobj) : M column :=
  match y with
  | PySeries s => ret (cudf.data s)
  | PyForeign o => raise (no_attribute (f_name o) "data")
  end.

(** The engines take nvstrings only.  The encoder never hands them a
    buffer: [_enforce_str] and [astype('str')] come first. *)
Definition as_nvstrings (c : column) : M nvstrings.t :=
  match c with
  | NvStrings strs => ret strs
  | Buffer _ => raise (TypeError "expected an nvstrings column")
  end.

Definition not_supported (op l r : string) : exn :=
  TypeError
    (String.append "'"
       (String.append op
          (String.append "' not supported between instances of '"
             (String.append l (String.append "' and '"
                (String.append r "'")))))).

(** [str(v)] *)
Definition py_str (v : scalar) : string :=
  match v with
  | IntVal z => PyStr.str_int z
  | StrVal s => s
  end.

(** [v < n] for an integer [n] *)
Definition py_lt (v : scalar) (n : Z) : M bool :=
  match v with
  | IntVal z => ret (z <? n)
  | StrVal _ => raise (not_supported "<" "str" "int")
  end.

(** [v >= n] for an integer [n] *)
Definition py_ge (v : scalar) (n : Z) : M bool :=
  match v with
  | IntVal z => ret (z >=? n)
  | StrVal _ => raise (not_supported ">=" "str" "int")
  end.

(** [l[v]] on a Python list: a negative index counts from the end. *)
Definition py_getitem (l : list string) (v : scalar) : M string :=
  match v with
  | IntVal z =>
      let n := Z.of_nat (List.length l) in
      let i := if z <? 0 then z + n else z in
      if (i <? 0) || (i >=? n)
      then raise (IndexError "list index out of range")
      else match nth_error l (Z.to_nat i) with
           | Some x => ret x
           | None => raise (IndexError "list index out of range")
           end
  | StrVal _ => raise (TypeError "list indices must be integers or slices, not str")
  end.

(** The engine calls, each entered in the log. *)
Definition nv_from_strings (c : column) : M nvcategory.t :=
  strs <- as_nvstrings c ;;
  engine E_from_strings ;;
  ret (nvcategory.from_strings strs).

Definition nv_keys (c : option nvcategory.t) : M nvstrings.t :=
  match c with
  | Some cat => engine E_keys ;; ret (nvcategory.keys cat)
  | None => raise (no_attribute "NoneType" "keys")
  end.

Definition nv_set_keys (c : nvcategory.t) (ks : nvstrings.t)
  : M nvcategory.t :=
  engine E_set_keys ;; ret (nvcategory.set_keys c ks).

Definition nv_values (c : option nvcategory.t) : M (list Z) :=
  match c with
  | Some cat => engine E_values ;; ret (nvcategory.values cat)
  | None => raise (no_attribute "NoneType" "values")
  end.

Definition nv_replace (strs : nvstrings.t) (pat repl : string)
  : M nvstrings.t :=
  engine E_replace ;; ret (nvstrings.replace strs pat repl).

(* ================================================================== *)
(** * LabelEncoder.py                                                  *)
(* ================================================================== *)

Definition DIGIT_WARNING : string :=
  String.append
    "If inverse_transform() is needed, string labels should not contain "
    "any digit in them, otherwise they may be incorrectly inversed".

(** [_enforce_str(y)] *)
Definition _enforce_str (y : pyobj) : M pyobj :=
  d <- getattr_dtype y ;;
  if negb (dtype_eqb d object) then py_astype_str y else ret y.

(** The loop of [_trans_back] over the distinct codes, highest first. *)
Fixpoint _trans_back_loop (categories : option nvcategory.t)
    (keys : list string) (sorted_ord_label : list scalar)
    (reverted : nvstrings.t) : M nvstrings.t :=
  match sorted_ord_label with
  | [] => ret reverted
  | ord_int :: rest =>
      let ord_str := py_str ord_int in
      neg <- py_lt ord_int 0 ;;
      bad <- (if neg then ret true
              else ks <- nv_keys categories ;;
                   py_ge ord_int (Z.of_nat (List.length ks))) ;;
      if bad
      then raise (ValueError
                    (String.append "y contains previously unseen label "
                       ord_str))
      else
        k <- py_getitem keys ord_int ;;
        reverted' <- nv_replace reverted ord_str k ;;
        _trans_back_loop categories keys rest reverted'
  end.

(** [_trans_back(ser, categories, orig_dtype)] *)
Definition _trans_back (ser : Series) (categories : option nvcategory.t)
    (orig_dtype : option dtype) : M Series :=
  let sorted_ord_label := cudf.unique_sorted_desc ser in
  keys <- nv_keys categories ;;
  reverted <- as_nvstrings (cudf.data (cudf.astype_str ser)) ;;
  reverted <- _trans_back_loop categories keys
                (cudf.iter sorted_ord_label) reverted ;;
  ret (cudf.Series_of_strings reverted orig_dtype).

(** [LabelEncoder()]; the constructor also emits [DIGIT_WARNING]. *)
Definition __init__ : LabelEncoder := mkEncoder None None false.

Definition _check_is_fitted : M unit :=
  e <- get_self ;;
  if negb (_fitted e)
  then raise (RuntimeError "Model must first be .fit()")
  else ret tt.

(** [self.fit(y)]; it returns [self], the encoder the monad carries. *)
Definition fit (y : pyobj) : M unit :=
  d <- getattr_dtype y ;;
  set_dtype d ;;
  y <- _enforce_str y ;;
  col <- getattr_data y ;;
  cats <- nv_from_strings col ;;
  set_cats cats ;;
  set_fitted true ;;
  ret tt.

(** [self.transform(y)] *)
Definition transform (y : pyobj) : M Series :=
  _check_is_fitted ;;
  y <- _enforce_str y ;;
  col <- getattr_data y ;;
  c <- nv_from_strings col ;;
  e <- get_self ;;
  ks <- nv_keys (_cats e) ;;
  c' <- nv_set_keys c ks ;;
  vals <- nv_values (Some c') ;;
  let encoded := IntSeries int64 vals in
  if cudf.contains (-1) encoded
  then raise (KeyError "Attempted to encode unseen key")
  else ret encoded.

(** [self.fit_transform(y)]: the device array has one slot per input
    string and [values] fills it. *)
Definition fit_transform (y : pyobj) : M Series :=
  d <- getattr_dtype y ;;
  set_dtype d ;;
  y <- _enforce_str y ;;
  col <- getattr_data y ;;
  cats <- nv_from_strings col ;;
  set_cats cats ;;
  set_fitted true ;;
  col <- getattr_data y ;;
  strs <- as_nvstrings col ;;
  e <- get_self ;;
  vals <- nv_values (_cats e) ;;
  let arr := firstn (nvstrings.size strs) vals in
  ret (IntSeries int32 arr).

(** [self.inverse_transform(y)] *)
Definition inverse_transform (y : pyobj) : M Series :=
  _check_is_fitted ;;
  match y with
  | PySeries ser =>
      e <- get_self ;;
      _trans_back ser (_cats e) (_dtype e)
  | PyForeign _ =>
      raise (TypeError
               (String.append "Input of type "
                  (String.append (type_repr y) " is not cudf.Series")))
  end.

(** The four public calls, and what running one gives. *)
Inductive call :=
| Fit (y : pyobj)
| Transform (y : pyobj)
| FitTransform (y : pyobj)
| InverseTransform (y : pyobj).

Definition do_call (c : call) : M (option Series) :=
  match c with
  | Fit y => fit y ;; ret None
  | Transform y => s <- transform y ;; ret (Some s)
  | FitTransform y => s <- fit_transform y ;; ret (Some s)
  | InverseTransform y => s <- inverse_transform y ;; ret (Some s)
  end.

Definition fresh : world := mkWorld __init__ [].

(** The encoder states a program can reach from [LabelEncoder()]. *)
Inductive reachable : world -> Prop :=
| reach_fresh : reachable fresh
| reach_call : forall w c, reachable w -> reachable (snd (do_call c w)).

(* ================================================================== *)
(** * Auxiliary notions used in the statements                         *)
(* ================================================================== *)

Fixpoint pow10 (k : nat) : N :=
  match k with
  | O => 1
  | S k' => 10 * pow10 k'
  end.

(** Every character is a decimal digit. *)
Fixpoint all_digits (s : string) : bool :=
  match s with
  | EmptyString => true
  | String c s' => PyStr.is_digit c && all_digits s'
  end.

(** The string forms the encoder works on: what [_enforce_str(y).data]
    holds for a Series [y]. *)
Definition str_forms (y : Series) : list string :=
  match y with
  | StrSeries l => l
  | IntSeries _ l => map PyStr.str_int l
  end.

(** No label contains a digit. *)
Definition digit_free (l : list string) : Prop :=
  Forall (fun s => PyStr.has_digit s = false) l.

(** The codes of a result, whatever integer width carries them. *)
Definition codes_of (r : result Series) : result (list Z) :=
  match r with
  | Return (IntSeries _ l) => Return l
  | Return (StrSeries _) => Return []
  | Raise e => Raise e
  end.

Definition raises {A} (r : result A) (cls : string) : Prop :=
  exists e, r = Raise e /\ exn_class e = cls.

(** The state [fit] leaves on a Series [y]. *)
Definition fitted_on (y : Series) : LabelEncoder :=
  mkEncoder (Some (nvcategory.from_strings (str_forms y)))
            (Some (cudf.dtype_of y)) true.

(** The message of the [ValueError] raised on the code [z]. *)
Definition unseen_msg (z : Z) : string :=
  String.append "y contains previously unseen label " (PyStr.str_int z).

(** The world after further engine calls. *)
Definition logged (w : world) (l : list engine_call) : world :=
  mkWorld (self w) (engine_log w ++ l).

(** The key a code stands for. *)
Definition key_at (c : nvcategory.t) (z : Z) : string :=
  nth (Z.to_nat z) (nvcategory.keys c) EmptyString.

Definition in_range (c : nvcategory.t) (z : Z) : Prop :=
  0 <= z < Z.of_nat (List.length (nvcategory.keys c)).

(** What a position of the text buffer holds while the codes in
    [pending] are still to be replaced. *)
Definition partial (c : nvcategory.t) (pending : list Z) (z : Z) : string :=
  if in_dec Z.eq_dec z pending then PyStr.str_int z else key_at c z.

(** A computation that leaves the encoder as it found it. *)
Definition preserves_self {A} (m : M A) : Prop :=
  forall w, self (snd (m w)) = self w.

(** The encoder of [w] is fitted, with vocabulary [c]. *)
Definition fitted_with (w : world) (c : nvcategory.t) : Prop :=
  _fitted (self w) = true /\ _cats (self w) = Some c.

(** The [dtype] attribute of an argument, when it has one. *)
Definition input_dtype (y : pyobj) : option dtype :=
  match y with
  | PySeries s => Some (cudf.dtype_of s)
  | PyForeign o => f_dtype o
  end.

(** A [dask_cudf] Series of strings, as in the example of the class
    docstring: it has a dtype and [astype], and no [data]. *)
Definition dask_series : pyobj :=
  PyForeign (mkForeign "dask_cudf.core" "Series" (Some object)).

(** The encoder [fit] and [fit_transform] leave behind: the fitted
    state on a Series; on another object the dtype it shows, if any, and
    nothing else. *)
Definition after_fit (y : pyobj) (e : LabelEncoder) : LabelEncoder :=
  match y with
  | PySeries s => fitted_on s
  | PyForeign o =>
      match f_dtype o with
      | None => e
      | Some d => mkEncoder (_cats e) (Some d) (_fitted e)
      end
  end.

(** ** Concrete inputs used in the examples *)

(** The labels of the class docstring. *)
Definition abcd : Series := StrSeries ["a"; "b"; "c"; "d"].

(** Eleven distinct labels without digits. *)
Definition labels11 : Series :=
  StrSeries ["a"; "b"; "c"; "d"; "e"; "f"; "g"; "h"; "i"; "j"; "k"].

(** Two labels, one of which contains the text of the other's code. *)
Definition digit_labels : Series := StrSeries ["a"; "b0"].

(** The integer labels of the dtype example. *)
Definition int_labels : Series := IntSeries int64 [10; 20; 10; 30].

(** The world after [fit] on a Series, starting from [LabelEncoder()]. *)
Definition fitted_world (y : Series) : world :=
  snd (fit (PySeries y) fresh).

(* ================================================================== *)
(** * Facts about strings                                              *)
(* ================================================================== *)

Section StringFacts.

Lemma append_empty_r (s : string) : String.append s EmptyString = s.
Proof. induction s as [|c s IH]; simpl; [reflexivity | now rewrite IH]. Qed.

Lemma append_length (s t : string) :
  String.length (String.append s t) = (String.length s + String.length t)%nat.
Proof. induction s as [|c s IH]; simpl; [reflexivity | now rewrite IH]. Qed.

Lemma append_last_inj (s t : string) (a b : ascii) :
  String.append s (String a EmptyString)
  = String.append t (String b EmptyString) ->
  s = t /\ a = b.
Proof.
  revert t; induction s as [|c s IH]; intros [|d t]; simpl; intros H.
  - now inversion H.
  - inversion H as [[Hc Hs]]. destruct t; discriminate Hs.
  - inversion H as [[Hc Hs]]. destruct s; discriminate Hs.
  - inversion H as [[Hc Hs]]. destruct (IH _ Hs) as [-> ->]. now split.
Qed.

Lemma prefix_length (p s : string) :
  String.prefix p s = true -> (String.length p <= String.length s)%nat.
Proof.
  revert p; induction s as [|c s IH]; intros [|a p]; simpl; intros H;
    try lia; try discriminate.
  destruct (ascii_dec a c); [|discriminate].
  apply IH in H. lia.
Qed.

Lemma prefix_same_length (p s : string) :
  String.prefix p s = true -> String.length p = String.length s -> p = s.
Proof.
  revert p; induction s as [|c s IH]; intros [|a p]; simpl; intros H L;
    try reflexivity; try discriminate.
  destruct (ascii_dec a c) as [->|]; [|discriminate].
  f_equal. apply IH; [assumption | lia].
Qed.

Lemma prefix_refl (s : string) : String.prefix s s = true.
Proof.
  induction s as [|c s IH]; simpl; [reflexivity|].
  destruct (ascii_dec c c); [assumption | congruence].
Qed.

End StringFacts.

(* ================================================================== *)
(** * Facts about the decimal text of an integer                       *)
(* ================================================================== *)

Module PyStrFacts.
Import PyStr.

Lemma pow10_S k : pow10 (S k) = (10 * pow10 k)%N.
Proof. reflexivity. Qed.

Ltac pow10_norm :=
  rewrite ?pow10_S in *; change (pow10 O) with 1%N in *.

Lemma pow10_pos k : (0 < pow10 k)%N.
Proof. induction k; [reflexivity | rewrite pow10_S; lia]. Qed.

Lemma pow10_mono j k : (j <= k)%nat -> (pow10 j <= pow10 k)%N.
Proof. induction 1 as [|k _ IH]; [lia | pow10_norm; lia]. Qed.

Lemma size_nat_bound n : (n < pow10 (S (N.size_nat n)))%N.
Proof.
  assert (P : forall p, (N.pos p < 2 * pow10 (Pos.size_nat p))%N).
  { induction p as [p IH|p IH|]; cbn [Pos.size_nat]; pow10_norm; lia. }
  destruct n as [|p]; cbn [N.size_nat]; pow10_norm; [lia|].
  specialize (P p). lia.
Qed.

Lemma digit_char_inj a b :
  (a < 10)%N -> (b < 10)%N -> digit_char a = digit_char b -> a = b.
Proof.
  unfold digit_char. intros Ha Hb H.
  apply (f_equal N_of_ascii) in H.
  rewrite !N_ascii_embedding in H by lia. lia.
Qed.

Lemma digit_char_is_digit d : (d < 10)%N -> is_digit (digit_char d) = true.
Proof.
  unfold is_digit, digit_char. intros H.
  rewrite N_ascii_embedding by lia.
  apply andb_true_intro. split; apply N.leb_le; lia.
Qed.

Lemma all_digits_app s t :
  all_digits (String.append s t) = all_digits s && all_digits t.
Proof.
  induction s as [|c s IH]; simpl; [reflexivity|].
  now rewrite IH, andb_assoc.
Qed.

Lemma str_digits_all_digits f n : all_digits (str_digits f n) = true.
Proof.
  assert (D : is_digit (digit_char (n mod 10)) = true)
    by (apply digit_char_is_digit, N.mod_lt; lia).
  revert n D. induction f as [|f IH]; intros n D; simpl.
  - now rewrite D.
  - destruct (n <? 10)%N; simpl; [now rewrite D|].
    rewrite all_digits_app, IH; simpl; [now rewrite D|].
    apply digit_char_is_digit, N.mod_lt; lia.
Qed.

(** The number of digits brackets the value between two powers of ten. *)
Lemma div10_lt n p : (n < 10 * p)%N -> (n / 10 < p)%N.
Proof.
  intros H. pose proof (N.div_mod' n 10) as Hdm.
  pose proof (N.mod_lt n 10 ltac:(lia)) as Hm.
  generalize dependent (n mod 10)%N. intros r Hdm Hm.
  generalize dependent (n / 10)%N. intros q Hdm. lia.
Qed.

Lemma div10_ub n p : (n / 10 < p)%N -> (n < 10 * p)%N.
Proof.
  pose proof (N.div_mod' n 10) as Hdm.
  pose proof (N.mod_lt n 10 ltac:(lia)) as Hm.
  generalize dependent (n mod 10)%N. intros r Hdm Hm.
  generalize dependent (n / 10)%N. intros q Hdm. lia.
Qed.

Lemma div10_le n p : (10 <= n)%N -> (p <= n / 10)%N -> (10 * p <= n)%N.
Proof.
  intros H. pose proof (N.div_mod' n 10) as Hdm.
  generalize dependent (n mod 10)%N. intros r Hdm.
  generalize dependent (n / 10)%N. intros q Hdm. lia.
Qed.

Lemma div10_ge1 n : (10 <= n)%N -> (1 <= n / 10)%N.
Proof.
  intros H. pose proof (N.div_mod' n 10) as Hdm.
  pose proof (N.mod_lt n 10 ltac:(lia)) as Hm.
  generalize dependent (n mod 10)%N. intros r Hdm Hm.
  generalize dependent (n / 10)%N. intros q Hdm. lia.
Qed.

Lemma divmod10_inj n m :
  (n / 10 = m / 10)%N -> (n mod 10 = m mod 10)%N -> n = m.
Proof.
  intros Hq Hr. rewrite (N.div_mod' n 10), (N.div_mod' m 10).
  now rewrite Hq, Hr.
Qed.

Lemma str_digits_length f n :
  (n < pow10 (S f))%N ->
  exists k, String.length (str_digits f n) = S k
            /\ (n < pow10 (S k))%N
            /\ (k = O \/ (pow10 k <= n)%N).
Proof.
  revert n. induction f as [|f IH]; intros n Hn.
  - exists O. cbn [str_digits String.length]. auto.
  - cbn [str_digits]. destruct (N.ltb_spec n 10) as [Hlt|Hge].
    + exists O. cbn [String.length]. pow10_norm. split; [|split]; auto; lia.
    + rewrite pow10_S in Hn.
      destruct (IH (n / 10)%N (div10_lt _ _ Hn)) as (k & HL & Hub & Hlb).
      exists (S k). rewrite append_length, HL. cbn [String.length].
      split; [lia|]. rewrite (pow10_S (S k)), (pow10_S k).
      split.
      * rewrite pow10_S in Hub. now apply div10_ub.
      * right. apply div10_le; [assumption|].
        destruct Hlb as [->|Hlb]; [|assumption].
        now apply div10_ge1.
Qed.

Lemma str_digits_length_mono f g n m :
  (n < pow10 (S f))%N -> (m < pow10 (S g))%N -> (n <= m)%N ->
  (String.length (str_digits f n) <= String.length (str_digits g m))%nat.
Proof.
  intros Hn Hm Hle.
  destruct (str_digits_length f n Hn) as (k & -> & _ & Hlb).
  destruct (str_digits_length g m Hm) as (j & -> & Hub & _).
  destruct (Nat.le_gt_cases k j) as [|Hgt]; [lia|exfalso].
  destruct Hlb as [->|Hlb]; [lia|].
  pose proof (pow10_mono (S j) k ltac:(lia)). lia.
Qed.

(** A one-digit text against a longer one. *)
Lemma str_digits_two f n :
  (n < pow10 (S f))%N ->
  forall c d,
    String.append (str_digits f n) (String c EmptyString)
    <> String d EmptyString.
Proof.
  intros Hn c d E. apply (f_equal String.length) in E.
  rewrite append_length in E. cbn [String.length] in E.
  destruct (str_digits_length f n Hn) as (k & HL & _). lia.
Qed.

Lemma one_digit_inj n m :
  (n < 10)%N -> (m < 10)%N ->
  String (digit_char (n mod 10)) EmptyString
  = String (digit_char (m mod 10)) EmptyString -> n = m.
Proof.
  intros Hn Hm E. inversion E as [D].
  rewrite (N.mod_small n 10), (N.mod_small m 10) in D by assumption.
  now apply digit_char_inj.
Qed.

Lemma str_digits_inj f g n m :
  (n < pow10 (S f))%N -> (m < pow10 (S g))%N ->
  str_digits f n = str_digits g m -> n = m.
Proof.
  revert g n m. induction f as [|f IH]; intros [|g] n m Hn Hm E;
    cbn [str_digits] in E; rewrite ?pow10_S in Hn, Hm;
    change (pow10 O) with 1%N in Hn, Hm;
    pose proof (N.mod_lt n 10 ltac:(lia)) as Hmn;
    pose proof (N.mod_lt m 10 ltac:(lia)) as Hmm.
  - apply one_digit_inj; auto; lia.
  - destruct (N.ltb_spec m 10).
    + apply one_digit_inj; auto; lia.
    + symmetry in E. apply str_digits_two in E; [easy|].
      rewrite pow10_S. now apply div10_lt.
  - destruct (N.ltb_spec n 10).
    + apply one_digit_inj; auto; lia.
    + apply str_digits_two in E; [easy|].
      rewrite pow10_S. now apply div10_lt.
  - destruct (N.ltb_spec n 10), (N.ltb_spec m 10).
    + apply one_digit_inj; auto.
    + symmetry in E. apply str_digits_two in E; [easy|].
      rewrite pow10_S. now apply div10_lt.
    + apply str_digits_two in E; [easy|].
      rewrite pow10_S. now apply div10_lt.
    + apply append_last_inj in E. destruct E as [E D].
      apply digit_char_inj in D; try assumption.
      apply IH in E; rewrite ?pow10_S; try now apply div10_lt.
      now apply divmod10_inj.
Qed.

Lemma str_N_all_digits n : all_digits (str_N n) = true.
Proof. apply str_digits_all_digits. Qed.

Lemma str_N_inj n m : str_N n = str_N m -> n = m.
Proof. apply str_digits_inj; apply size_nat_bound. Qed.

Lemma str_N_length_mono n m :
  (n <= m)%N ->
  (String.length (str_N n) <= String.length (str_N m))%nat.
Proof. apply str_digits_length_mono; apply size_nat_bound. Qed.

Lemma str_N_head n :
  exists c s, str_N n = String c s /\ is_digit c = true.
Proof.
  pose proof (str_N_all_digits n) as D.
  destruct (str_digits_length _ n (size_nat_bound n)) as (k & HL & _).
  fold (str_N n) in HL. destruct (str_N n) as [|c s]; [discriminate|].
  simpl in D. apply andb_prop in D as [D _]. now exists c, s.
Qed.

Lemma str_int_nonneg z : 0 <= z -> str_int z = str_N (Z.to_N z).
Proof.
  intros H. unfold str_int.
  now destruct (Z.ltb_spec z 0); [lia|].
Qed.

Lemma str_int_head z :
  0 <= z -> exists c s, str_int z = String c s /\ is_digit c = true.
Proof. intros H. rewrite str_int_nonneg by assumption. apply str_N_head. Qed.

Lemma str_int_inj a b : 0 <= a -> 0 <= b -> str_int a = str_int b -> a = b.
Proof.
  intros Ha Hb E. rewrite !str_int_nonneg in E by assumption.
  apply str_N_inj in E. lia.
Qed.

Lemma str_int_length_mono a b :
  0 <= a <= b ->
  (String.length (str_int a) <= String.length (str_int b))%nat.
Proof.
  intros H. rewrite !str_int_nonneg by lia. apply str_N_length_mono. lia.
Qed.

(** The text of any integer contains a digit. *)
Lemma str_int_has_digit z : has_digit (str_int z) = true.
Proof.
  unfold str_int. destruct (z <? 0).
  - destruct (str_N_head (Z.to_N (- z))) as (c & s & E & D).
    rewrite E. simpl. now rewrite D.
  - destruct (str_N_head (Z.to_N z)) as (c & s & E & D).
    rewrite E. simpl. now rewrite D.
Qed.

End PyStrFacts.

(* ================================================================== *)
(** * Facts about [nvstrings.replace]                                  *)
(* ================================================================== *)

Module ReplaceFacts.
Import nvstrings.

(** Characters still being skipped are dropped. *)
Lemma replace_from_skip pat repl s k :
  (String.length s <= k)%nat -> replace_from pat repl k s = EmptyString.
Proof.
  revert k. induction s as [|c s IH]; intros k H; simpl; [reflexivity|].
  destruct k as [|k]; simpl in H; [lia|]. apply IH. lia.
Qed.

(** A string shorter than the pattern has no occurrence of it. *)
Lemma replace_from_short pat repl s :
  (String.length s < String.length pat)%nat ->
  replace_from pat repl O s = s.
Proof.
  induction s as [|c s IH]; intros H; [reflexivity|].
  cbn [replace_from].
  destruct (String.prefix pat (String c s)) eqn:P.
  - apply prefix_length in P. lia.
  - f_equal. apply IH. simpl in H. lia.
Qed.

(** A string no longer than the pattern, and different from it, is
    left alone. *)
Lemma replace1_other pat repl s :
  (String.length s <= String.length pat)%nat -> s <> pat ->
  replace1 pat repl s = s.
Proof.
  intros L D. unfold replace1. destruct pat as [|a p]; [reflexivity|].
  destruct s as [|c s]; [reflexivity|].
  cbn [replace_from].
  destruct (String.prefix (String a p) (String c s)) eqn:P.
  - exfalso. apply D. symmetry. apply prefix_same_length; [assumption|].
    apply prefix_length in P. lia.
  - f_equal. apply replace_from_short. simpl in *. lia.
Qed.

(** The pattern itself becomes the replacement. *)
Lemma replace1_self pat repl :
  pat <> EmptyString -> replace1 pat repl pat = repl.
Proof.
  intros N. unfold replace1. destruct pat as [|a p]; [congruence|].
  cbn [replace_from]. rewrite prefix_refl.
  rewrite replace_from_skip by (simpl; lia).
  apply append_empty_r.
Qed.

(** A string without digits has no occurrence of a pattern that starts
    with one. *)
Lemma replace1_digit_free a p repl s :
  PyStr.is_digit a = true -> PyStr.has_digit s = false ->
  replace1 (String a p) repl s = s.
Proof.
  intros Da. unfold replace1.
  induction s as [|c s IH]; intros H; [reflexivity|].
  simpl in H. apply orb_false_elim in H as [Hc Hs].
  cbn [replace_from String.prefix].
  destruct (ascii_dec a c) as [->|]; [congruence|].
  f_equal. now apply IH.
Qed.

End ReplaceFacts.

(* ================================================================== *)
(** * Facts about sorting with duplicates removed                      *)
(* ================================================================== *)

Section SortUniqueFacts.

Context {A : Type} (cmp : A -> A -> comparison).

Hypothesis cmp_eq : forall x y, cmp x y = Eq -> x = y.
Hypothesis cmp_gt : forall x y, cmp x y = Gt -> cmp y x = Lt.

Local Abbreviation lt := (fun x y : A => cmp x y = Lt).

Lemma insert_unique_In x l y :
  In y (insert_unique cmp x l) <-> y = x \/ In y l.
Proof.
  induction l as [|k l IH]; simpl.
  - intuition.
  - destruct (cmp x k) eqn:C; simpl.
    + apply cmp_eq in C. subst k. intuition.
    + intuition.
    + rewrite IH. intuition.
Qed.

Lemma sort_unique_In l y : In y (sort_unique cmp l) <-> In y l.
Proof.
  induction l as [|x l IH]; simpl; [reflexivity|].
  rewrite insert_unique_In, IH. intuition.
Qed.

Lemma insert_unique_HdRel k x l :
  lt k x -> HdRel lt k l -> HdRel lt k (insert_unique cmp x l).
Proof.
  intros Hkx H. destruct l as [|a l]; simpl.
  - now constructor.
  - inversion H; subst. destruct (cmp x a); now constructor.
Qed.

Lemma insert_unique_Sorted x l :
  Sorted lt l -> Sorted lt (insert_unique cmp x l).
Proof.
  induction 1 as [|k l S IH H]; simpl.
  - repeat constructor.
  - destruct (cmp x k) eqn:C.
    + now constructor.
    + constructor; [now constructor | now constructor].
    + constructor; [assumption|].
      apply insert_unique_HdRel; [|assumption]. now apply cmp_gt.
Qed.

Lemma sort_unique_Sorted l : Sorted lt (sort_unique cmp l).
Proof.
  induction l as [|x l IH]; simpl; [constructor|].
  now apply insert_unique_Sorted.
Qed.

(** Sorting a list that is already strictly increasing changes nothing. *)
Lemma sort_unique_fixed l : Sorted lt l -> sort_unique cmp l = l.
Proof.
  induction 1 as [|k l S IH H]; simpl; [reflexivity|].
  rewrite IH. destruct H as [|a l H]; simpl; [reflexivity|].
  now rewrite H.
Qed.

Lemma sort_unique_idem l :
  sort_unique cmp (sort_unique cmp l) = sort_unique cmp l.
Proof. apply sort_unique_fixed, sort_unique_Sorted. Qed.

Hypothesis lt_trans : forall x y z, lt x y -> lt y z -> lt x z.
Hypothesis lt_irrefl : forall x, ~ lt x x.

Lemma sort_unique_StronglySorted l : StronglySorted lt (sort_unique cmp l).
Proof.
  apply Sorted_StronglySorted; [exact lt_trans | apply sort_unique_Sorted].
Qed.

Lemma StronglySorted_NoDup l : StronglySorted lt l -> NoDup l.
Proof.
  induction 1 as [|k l S IH H]; constructor; [|assumption].
  intros I. rewrite Forall_forall in H. exact (lt_irrefl _ (H _ I)).
Qed.

Lemma sort_unique_NoDup l : NoDup (sort_unique cmp l).
Proof. apply StronglySorted_NoDup, sort_unique_StronglySorted. Qed.

End SortUniqueFacts.

(* ================================================================== *)
(** * Facts about the dictionary engine                                *)
(* ================================================================== *)

Module CategoryFacts.
Import nvcategory.

Lemma string_cmp_eq x y : String_as_OT.compare x y = Eq -> x = y.
Proof.
  intros H. destruct (String_as_OT.compare_spec x y); congruence.
Qed.

Lemma string_cmp_gt x y :
  String_as_OT.compare x y = Gt -> String_as_OT.compare y x = Lt.
Proof.
  intros H. destruct (String_as_OT.compare_spec x y); congruence.
Qed.

Lemma string_lt_trans x y z :
  String_as_OT.compare x y = Lt -> String_as_OT.compare y z = Lt ->
  String_as_OT.compare x z = Lt.
Proof. apply (@StrictOrder_Transitive _ _ String_as_OT.lt_strorder). Qed.

Lemma string_lt_irrefl x : String_as_OT.compare x x <> Lt.
Proof. apply (@StrictOrder_Irreflexive _ _ String_as_OT.lt_strorder). Qed.

Lemma sorted_keys_In strs s : In s (sorted_keys strs) <-> In s strs.
Proof. apply sort_unique_In, string_cmp_eq. Qed.

Lemma sorted_keys_NoDup strs : NoDup (sorted_keys strs).
Proof.
  apply sort_unique_NoDup.
  - exact string_cmp_gt.
  - exact string_lt_trans.
  - exact string_lt_irrefl.
Qed.

Lemma sorted_keys_idem strs :
  sorted_keys (sorted_keys strs) = sorted_keys strs.
Proof. apply sort_unique_idem, string_cmp_gt. Qed.

(** The vocabulary has one key per distinct label. *)
Lemma sorted_keys_length strs :
  List.length (sorted_keys strs) = List.length (nodup string_dec strs).
Proof.
  apply Nat.le_antisymm; apply NoDup_incl_length.
  - apply sorted_keys_NoDup.
  - intros s H. apply nodup_In. now apply sorted_keys_In.
  - apply NoDup_nodup.
  - intros s H. apply sorted_keys_In. now apply nodup_In in H.
Qed.

Lemma key_index_range s ks :
  -1 <= key_index s ks < Z.of_nat (List.length ks).
Proof.
  induction ks as [|k ks IH]; cbn [key_index List.length]; [lia|].
  destruct (String.eqb s k); [lia|].
  destruct (Z.ltb_spec (key_index s ks) 0); lia.
Qed.

Lemma key_index_absent s ks : ~ In s ks -> key_index s ks = -1.
Proof.
  induction ks as [|k ks IH]; intros H; cbn [key_index]; [reflexivity|].
  destruct (String.eqb_spec s k) as [->|_].
  - exfalso. apply H. now left.
  - rewrite IH by (intros I; apply H; now right). reflexivity.
Qed.

Lemma key_index_present s ks :
  In s ks ->
  0 <= key_index s ks
  /\ nth_error ks (Z.to_nat (key_index s ks)) = Some s.
Proof.
  induction ks as [|k ks IH]; intros H; [contradiction|].
  cbn [key_index].
  destruct (String.eqb_spec s k) as [->|D].
  - split; [lia | reflexivity].
  - destruct H as [->|H]; [congruence|].
    destruct (IH H) as [P E].
    destruct (Z.ltb_spec (key_index s ks) 0); [lia|].
    split; [lia|].
    replace (Z.to_nat (key_index s ks + 1))
      with (S (Z.to_nat (key_index s ks))) by lia.
    exact E.
Qed.

Lemma key_index_neg s ks : key_index s ks < 0 -> key_index s ks = -1.
Proof. pose proof (key_index_range s ks). lia. Qed.

(** Re-keying a category with its own keys leaves the values alone. *)
Lemma remap_same ks s :
  In s ks -> remap ks ks (key_index s ks) = key_index s ks.
Proof.
  intros H. destruct (key_index_present s ks H) as [P E].
  unfold remap. destruct (Z.ltb_spec (key_index s ks) 0); [lia|].
  now rewrite E.
Qed.

Lemma from_strings_values_length strs :
  List.length (values (from_strings strs)) = List.length strs.
Proof. unfold values, from_strings. simpl. apply length_map. Qed.

Lemma set_keys_same strs :
  set_keys (from_strings strs) (keys (from_strings strs))
  = from_strings strs.
Proof.
  unfold set_keys, from_strings, keys. cbn [cat_keys cat_values].
  rewrite sorted_keys_idem. f_equal.
  rewrite map_map. apply map_ext_in. intros s H.
  apply remap_same. now apply sorted_keys_In.
Qed.

(** Under any key set, the value of a string that is not a key is the
    sentinel, and the value of a key is its position. *)
Lemma set_keys_values strs ks :
  values (set_keys (from_strings strs) ks)
  = map (fun s => key_index s (sorted_keys ks)) strs.
Proof.
  unfold set_keys, from_strings, values. cbn [cat_keys cat_values].
  rewrite map_map. apply map_ext_in. intros s H.
  apply sorted_keys_In in H.
  destruct (key_index_present s _ H) as [P E].
  unfold remap. destruct (Z.ltb_spec (key_index s (sorted_keys strs)) 0);
    [lia|].
  now rewrite E.
Qed.

End CategoryFacts.

(* ================================================================== *)
(** * Facts about the distinct codes, highest first                    *)
(* ================================================================== *)

Module CodesFacts.

Lemma desc_In l c : In c (sort_unique desc_Z l) <-> In c l.
Proof.
  apply sort_unique_In. unfold desc_Z. intros x y H.
  apply Z.compare_eq in H. congruence.
Qed.

Lemma desc_sorted l :
  StronglySorted (fun a b => b < a) (sort_unique desc_Z l).
Proof.
  apply (sort_unique_StronglySorted desc_Z); unfold desc_Z.
  - intros x y H. apply Z.compare_gt_iff in H. exact H.
  - intros x y z H1 H2. change (y < x) in H1. change (z < y) in H2.
    change (z < x). lia.
Qed.

End CodesFacts.

(* ================================================================== *)
(** * Running the methods                                              *)
(* ================================================================== *)

Module Runs.

Ltac run :=
  repeat progress
    (cbv beta iota zeta delta
       [bind ret raise engine get_self set_self set_cats set_dtype
        set_fitted nv_from_strings nv_keys nv_set_keys nv_values
        nv_replace as_nvstrings getattr_data getattr_dtype py_astype_str
        _enforce_str _check_is_fitted py_lt py_ge py_getitem py_str];
     cbn [fst snd self engine_log _cats _dtype _fitted negb orb
          cudf.dtype_of cudf.data cudf.astype_str dtype_eqb]).

(** One turn of the loop of [_trans_back] on an integer code. *)
Lemma loop_cons c z rest reverted w :
  _trans_back_loop (Some c) (nvcategory.keys c) (IntVal z :: rest)
    reverted w
  = if z <? 0 then (Raise (ValueError (unseen_msg z)), w)
    else if z >=? Z.of_nat (List.length (nvcategory.keys c))
         then (Raise (ValueError (unseen_msg z)), logged w [E_keys])
         else match nth_error (nvcategory.keys c) (Z.to_nat z) with
              | Some k =>
                  _trans_back_loop (Some c) (nvcategory.keys c) rest
                    (nvstrings.replace reverted (PyStr.str_int z) k)
                    (logged (logged w [E_keys]) [E_replace])
              | None =>
                  (Raise (IndexError "list index out of range"),
                   logged w [E_keys])
              end.
Proof.
  cbn [_trans_back_loop]. run.
  destruct (z <? 0) eqn:N; [reflexivity|]. run.
  destruct (z >=? _) eqn:G; [reflexivity|].
  rewrite ?N. run.
  destruct (nth_error _ _); reflexivity.
Qed.

(** A code outside the vocabulary stops the loop with [ValueError]. *)
Lemma loop_unseen c pending :
  Exists (fun z => ~ in_range c z) pending ->
  forall reverted w, exists z l,
    _trans_back_loop (Some c) (nvcategory.keys c) (map IntVal pending)
      reverted w
    = (Raise (ValueError (unseen_msg z)), logged w l)
    /\ In z pending /\ ~ in_range c z.
Proof.
  unfold in_range.
  induction pending as [|h tl IH]; intros Hex reverted w.
  - inversion Hex.
  - cbn [map]. rewrite loop_cons.
    destruct (Z.ltb_spec h 0) as [Hn|Hn].
    { exists h, []. unfold logged. rewrite app_nil_r. destruct w.
      split; [reflexivity|]. split; [now left | lia]. }
    destruct (Z.geb_spec h (Z.of_nat (List.length (nvcategory.keys c))))
      as [Hg|Hg].
    { exists h, [E_keys]. split; [reflexivity|]. split; [now left | lia]. }
    destruct (nth_error (nvcategory.keys c) (Z.to_nat h)) as [k|] eqn:E.
    2:{ apply nth_error_None in E. lia. }
    inversion Hex as [? ? Hh|? ? Htl]; subst; [lia|].
    destruct (IH Htl (nvstrings.replace reverted (PyStr.str_int h) k)
                (logged (logged w [E_keys]) [E_replace]))
      as (z & l & R & I & O).
    exists z, ([E_keys] ++ [E_replace] ++ l). rewrite R.
    split; [|split; [now right | assumption]].
    unfold logged. cbn [self engine_log]. now rewrite <- !app_assoc.
Qed.

Lemma key_at_nth c z :
  in_range c z ->
  nth_error (nvcategory.keys c) (Z.to_nat z) = Some (key_at c z)
  /\ In (key_at c z) (nvcategory.keys c).
Proof.
  unfold in_range, key_at. intros H.
  assert (L : (Z.to_nat z < List.length (nvcategory.keys c))%nat) by lia.
  split; [now apply nth_error_nth' | now apply nth_In].
Qed.

(** Replacing the highest pending code moves exactly the positions that
    hold it. *)
Lemma replace_highest c h tl z :
  digit_free (nvcategory.keys c) ->
  in_range c h -> in_range c z ->
  Forall (fun b => b < h) tl ->
  nvstrings.replace1 (PyStr.str_int h) (key_at c h) (partial c (h :: tl) z)
  = partial c tl z.
Proof.
  intros DF Hh Hz Hlt. unfold partial.
  destruct (PyStrFacts.str_int_head h (proj1 Hh)) as (a & p & Eh & Da).
  destruct (in_dec Z.eq_dec z (h :: tl)) as [I|NI].
  - destruct (Z.eq_dec z h) as [->|D].
    + rewrite ReplaceFacts.replace1_self by (rewrite Eh; discriminate).
      destruct (in_dec Z.eq_dec h tl) as [I'|]; [|reflexivity].
      rewrite Forall_forall in Hlt. specialize (Hlt _ I'). lia.
    + destruct I as [E|I]; [congruence|].
      destruct (in_dec Z.eq_dec z tl) as [_|]; [|contradiction].
      rewrite Forall_forall in Hlt. specialize (Hlt _ I).
      apply ReplaceFacts.replace1_other.
      * apply PyStrFacts.str_int_length_mono. unfold in_range in *. lia.
      * intros E. apply PyStrFacts.str_int_inj in E;
          unfold in_range in *; lia.
  - destruct (in_dec Z.eq_dec z tl) as [I|_].
    { exfalso. apply NI. now right. }
    rewrite Eh. apply ReplaceFacts.replace1_digit_free; [assumption|].
    unfold digit_free in DF. rewrite Forall_forall in DF.
    apply DF. now apply key_at_nth.
Qed.

(** With digit-free keys and every code within the vocabulary, the loop
    ends with each position holding the key of its code. *)
Lemma loop_decodes c codes :
  digit_free (nvcategory.keys c) ->
  Forall (in_range c) codes ->
  forall pending,
    StronglySorted (fun a b => b < a) pending ->
    Forall (in_range c) pending ->
    forall w, exists l,
      _trans_back_loop (Some c) (nvcategory.keys c) (map IntVal pending)
        (map (partial c pending) codes) w
      = (Return (map (key_at c) codes), logged w l).
Proof.
  intros DF Hc.
  induction pending as [|h tl IH]; intros Hs Hp w.
  - exists []. cbn [map _trans_back_loop]. unfold ret, logged.
    rewrite app_nil_r. destruct w. reflexivity.
  - inversion Hs as [|? ? Hs' Hlt]; subst.
    inversion Hp as [|? ? Hh Hp']; subst.
    cbn [map]. rewrite loop_cons.
    destruct (Z.ltb_spec h 0); [unfold in_range in Hh; lia|].
    destruct (Z.geb_spec h (Z.of_nat (List.length (nvcategory.keys c))));
      [unfold in_range in Hh; lia|].
    rewrite (proj1 (key_at_nth c h Hh)).
    assert (E : nvstrings.replace (map (partial c (h :: tl)) codes)
                  (PyStr.str_int h) (key_at c h)
                = map (partial c tl) codes).
    { unfold nvstrings.replace. rewrite map_map. apply map_ext_in.
      intros z Hz. rewrite Forall_forall in Hc.
      apply replace_highest; auto. }
    rewrite E.
    destruct (IH Hs' Hp' (logged (logged w [E_keys]) [E_replace]))
      as (l & R).
    exists ([E_keys] ++ [E_replace] ++ l). rewrite R.
    unfold logged. cbn [self engine_log]. now rewrite <- !app_assoc.
Qed.

End Runs.

Module Methods.
Import Runs.

(** ** Computations that do not touch the encoder *)

Lemma preserves_ret {A} (a : A) : preserves_self (ret a).
Proof. intros w. reflexivity. Qed.

Lemma preserves_raise {A} e : preserves_self (@raise A e).
Proof. intros w. reflexivity. Qed.

Lemma preserves_engine c : preserves_self (engine c).
Proof. intros w. reflexivity. Qed.

Lemma preserves_get_self : preserves_self get_self.
Proof. intros w. reflexivity. Qed.

Lemma preserves_bind {A B} (m : M A) (k : A -> M B) :
  preserves_self m -> (forall a, preserves_self (k a)) ->
  preserves_self (bind m k).
Proof.
  intros Hm Hk w. unfold bind. specialize (Hm w).
  destruct (m w) as [[a|e] w']; cbn [snd] in *; [|assumption].
  now rewrite Hk.
Qed.

Create HintDb frame.

Ltac frame :=
  repeat lazymatch goal with
    | |- preserves_self (bind _ _) => apply preserves_bind; [|intros ?]
    | |- preserves_self (ret _) => apply preserves_ret
    | |- preserves_self (raise _) => apply preserves_raise
    | |- preserves_self (engine _) => apply preserves_engine
    | |- preserves_self get_self => apply preserves_get_self
    | |- preserves_self (match ?x with _ => _ end) => destruct x
    | |- _ => solve [auto with frame nocore]
    end.

Lemma preserves_check : preserves_self _check_is_fitted.
Proof. unfold _check_is_fitted. frame. Qed.

Lemma preserves_getattr_dtype y : preserves_self (getattr_dtype y).
Proof. unfold getattr_dtype. frame. Qed.

Lemma preserves_astype_str y : preserves_self (py_astype_str y).
Proof. unfold py_astype_str. frame. Qed.

Lemma preserves_getattr_data y : preserves_self (getattr_data y).
Proof. unfold getattr_data. frame. Qed.

Lemma preserves_as_nvstrings c : preserves_self (as_nvstrings c).
Proof. unfold as_nvstrings. frame. Qed.

#[local] Hint Resolve preserves_check preserves_getattr_dtype
  preserves_astype_str preserves_getattr_data preserves_as_nvstrings
  : frame.

Lemma preserves_from_strings c : preserves_self (nv_from_strings c).
Proof. unfold nv_from_strings. frame. Qed.

Lemma preserves_keys c : preserves_self (nv_keys c).
Proof. unfold nv_keys. frame. Qed.

Lemma preserves_set_keys c ks : preserves_self (nv_set_keys c ks).
Proof. unfold nv_set_keys. frame. Qed.

Lemma preserves_values c : preserves_self (nv_values c).
Proof. unfold nv_values. frame. Qed.

Lemma preserves_replace strs pat repl :
  preserves_self (nv_replace strs pat repl).
Proof. unfold nv_replace. frame. Qed.

Lemma preserves_py_lt v n : preserves_self (py_lt v n).
Proof. unfold py_lt. frame. Qed.

Lemma preserves_py_ge v n : preserves_self (py_ge v n).
Proof. unfold py_ge. frame. Qed.

Lemma preserves_py_getitem l v : preserves_self (py_getitem l v).
Proof. unfold py_getitem. frame. Qed.

Lemma preserves_enforce y : preserves_self (_enforce_str y).
Proof. unfold _enforce_str. frame. Qed.

#[local] Hint Resolve preserves_from_strings preserves_keys
  preserves_set_keys preserves_values preserves_replace preserves_py_lt
  preserves_py_ge preserves_py_getitem preserves_enforce : frame.

Lemma preserves_loop cats keys ords :
  forall reverted, preserves_self (_trans_back_loop cats keys ords reverted).
Proof.
  induction ords as [|v ords IH]; intros reverted; cbn [_trans_back_loop];
    frame.
Qed.

#[local] Hint Resolve preserves_loop : frame.

Lemma preserves_trans_back ser cats dt :
  preserves_self (_trans_back ser cats dt).
Proof. unfold _trans_back. frame. Qed.

#[local] Hint Resolve preserves_trans_back : frame.

(** [transform] never writes to the encoder. *)
Lemma preserves_transform y : preserves_self (transform y).
Proof. unfold transform. frame. Qed.

(** [inverse_transform] never writes to the encoder. *)
Lemma preserves_inverse_transform y :
  preserves_self (inverse_transform y).
Proof. unfold inverse_transform. frame. Qed.

End Methods.

Module MethodRuns.
Import Runs Methods.

Lemma world_eta w : mkWorld (self w) (engine_log w) = w.
Proof. now destruct w. Qed.

Lemma logged_nil w : logged w [] = w.
Proof. unfold logged. rewrite app_nil_r. apply world_eta. Qed.

Lemma logged_logged w l1 l2 : logged (logged w l1) l2 = logged w (l1 ++ l2).
Proof. unfold logged. cbn [self engine_log]. now rewrite app_assoc. Qed.

(** ** [fit] and [fit_transform] *)

Lemma fit_series y w :
  fit (PySeries y) w
  = (Return tt, mkWorld (fitted_on y) (engine_log w ++ [E_from_strings])).
Proof. destruct y as [l|[|] l]; reflexivity. Qed.

Lemma fit_transform_series y w :
  fit_transform (PySeries y) w
  = (Return (IntSeries int32
               (nvcategory.values (nvcategory.from_strings (str_forms y)))),
     mkWorld (fitted_on y)
       (engine_log w ++ [E_from_strings; E_values])).
Proof.
  assert (F : forall strs,
             firstn (nvstrings.size strs)
               (nvcategory.values (nvcategory.from_strings strs))
             = nvcategory.values (nvcategory.from_strings strs)).
  { intros strs. unfold nvstrings.size.
    rewrite <- (CategoryFacts.from_strings_values_length strs).
    apply firstn_all. }
  destruct y as [l|[|] l]; unfold fit_transform; run;
    cbn [str_forms]; rewrite F, <- app_assoc; reflexivity.
Qed.

Lemma fit_foreign o w :
  fit (PyForeign o) w
  = match f_dtype o with
    | None => (Raise (no_attribute (f_name o) "dtype"), w)
    | Some d =>
        (Raise (no_attribute (f_name o) "data"),
         mkWorld (mkEncoder (_cats (self w)) (Some d) (_fitted (self w)))
           (engine_log w))
    end.
Proof.
  unfold fit. run. destruct (f_dtype o) as [d|] eqn:E; [|reflexivity].
  run. destruct (negb (dtype_eqb d object)); run; rewrite ?E; reflexivity.
Qed.

Lemma fit_transform_foreign o w :
  fit_transform (PyForeign o) w
  = match f_dtype o with
    | None => (Raise (no_attribute (f_name o) "dtype"), w)
    | Some d =>
        (Raise (no_attribute (f_name o) "data"),
         mkWorld (mkEncoder (_cats (self w)) (Some d) (_fitted (self w)))
           (engine_log w))
    end.
Proof.
  unfold fit_transform. run.
  destruct (f_dtype o) as [d|] eqn:E; [|reflexivity].
  run. destruct (negb (dtype_eqb d object)); run; rewrite ?E; reflexivity.
Qed.

(** ** The guard *)

Lemma transform_unfitted y w :
  _fitted (self w) = false ->
  transform y w = (Raise (RuntimeError "Model must first be .fit()"), w).
Proof. intros H. unfold transform. run. now rewrite H. Qed.

Lemma inverse_transform_unfitted y w :
  _fitted (self w) = false ->
  inverse_transform y w
  = (Raise (RuntimeError "Model must first be .fit()"), w).
Proof. intros H. unfold inverse_transform. run. now rewrite H. Qed.

(** ** [transform] on a fitted encoder *)

Lemma contains_ints x wd l :
  cudf.contains x (IntSeries wd l) = existsb (fun z => z =? x) l.
Proof.
  unfold cudf.contains. cbn [cudf.iter].
  induction l as [|z l IH]; cbn [map existsb]; [reflexivity|].
  now rewrite IH.
Qed.

Lemma transform_fitted y w c :
  fitted_with w c ->
  transform (PySeries y) w
  = let vals := map (fun s => nvcategory.key_index s
                                (nvcategory.sorted_keys (nvcategory.keys c)))
                  (str_forms y) in
    let w' := logged w [E_from_strings; E_keys; E_set_keys; E_values] in
    if existsb (fun z => z =? -1) vals
    then (Raise (KeyError "Attempted to encode unseen key"), w')
    else (Return (IntSeries int64 vals), w').
Proof.
  intros [Hf Hc]. unfold transform. run. rewrite Hf. run.
  destruct y as [l|[|] l]; run; rewrite Hc; run;
    rewrite contains_ints, CategoryFacts.set_keys_values;
    unfold logged; rewrite <- !app_assoc; cbn [app str_forms];
    destruct (existsb _ _); reflexivity.
Qed.

(** ** [inverse_transform] on a fitted encoder *)

Lemma inverse_transform_foreign o w :
  _fitted (self w) = true ->
  inverse_transform (PyForeign o) w
  = (Raise (TypeError
              (String.append "Input of type "
                 (String.append (type_repr (PyForeign o))
                    " is not cudf.Series"))), w).
Proof. intros H. unfold inverse_transform. run. now rewrite H. Qed.

Lemma inverse_transform_codes wd codes w c :
  fitted_with w c ->
  inverse_transform (PySeries (IntSeries wd codes)) w
  = match _trans_back_loop (Some c) (nvcategory.keys c)
            (map IntVal (sort_unique desc_Z codes))
            (map PyStr.str_int codes) (logged w [E_keys]) with
    | (Return r, w') =>
        (Return (cudf.Series_of_strings r (_dtype (self w))), w')
    | (Raise e, w') => (Raise e, w')
    end.
Proof.
  intros [Hf Hc]. unfold inverse_transform. run. rewrite Hf. run.
  rewrite Hc. unfold _trans_back. run.
  cbn [cudf.unique_sorted_desc cudf.iter].
  unfold logged.
  destruct (_trans_back_loop _ _ _ _ _) as [[r|e] w']; reflexivity.
Qed.

End MethodRuns.

(* ================================================================== *)
(** * Decoding on a fitted encoder                                     *)
(* ================================================================== *)

Module Decoding.
Import Runs Methods MethodRuns.

Lemma partial_pending c pending z :
  In z pending -> partial c pending z = PyStr.str_int z.
Proof.
  intros H. unfold partial.
  now destruct (in_dec Z.eq_dec z pending).
Qed.

Lemma pending_in_range c codes :
  Forall (in_range c) codes ->
  Forall (in_range c) (sort_unique desc_Z codes).
Proof.
  rewrite !Forall_forall. intros H z Hz. apply H.
  now apply CodesFacts.desc_In.
Qed.

(** With digit-free keys, decoding codes that lie within the vocabulary
    gives the key of each code, cast to the recorded dtype. *)
Lemma inverse_transform_decodes w c wd codes :
  fitted_with w c ->
  digit_free (nvcategory.keys c) ->
  Forall (in_range c) codes ->
  exists l,
    inverse_transform (PySeries (IntSeries wd codes)) w
    = (Return (cudf.Series_of_strings (map (key_at c) codes)
                 (_dtype (self w))),
       logged w l).
Proof.
  intros Hf DF Hc. rewrite (inverse_transform_codes wd codes w c Hf).
  assert (E : map PyStr.str_int codes
              = map (partial c (sort_unique desc_Z codes)) codes).
  { apply map_ext_in. intros z Hz. symmetry. apply partial_pending.
    now apply CodesFacts.desc_In. }
  rewrite E.
  destruct (loop_decodes c codes DF Hc (sort_unique desc_Z codes)
              (CodesFacts.desc_sorted codes) (pending_in_range c codes Hc)
              (logged w [E_keys])) as (l & R).
  rewrite R, logged_logged. now exists ([E_keys] ++ l).
Qed.

(** Codes within the vocabulary never stop the loop. *)
Lemma loop_returns c pending :
  Forall (in_range c) pending ->
  forall reverted w, exists r l,
    _trans_back_loop (Some c) (nvcategory.keys c) (map IntVal pending)
      reverted w
    = (Return r, logged w l).
Proof.
  induction pending as [|h tl IH]; intros Hp reverted w.
  - exists reverted, []. now rewrite logged_nil.
  - inversion Hp as [|? ? Hh Hp']; subst.
    cbn [map]. rewrite loop_cons.
    destruct (Z.ltb_spec h 0); [unfold in_range in Hh; lia|].
    destruct (Z.geb_spec h (Z.of_nat (List.length (nvcategory.keys c))));
      [unfold in_range in Hh; lia|].
    rewrite (proj1 (key_at_nth c h Hh)).
    destruct (IH Hp'
                (nvstrings.replace reverted (PyStr.str_int h) (key_at c h))
                (logged (logged w [E_keys]) [E_replace]))
      as (r & l & R).
    exists r, (([E_keys] ++ [E_replace]) ++ l).
    now rewrite R, !logged_logged.
Qed.

Lemma inverse_transform_returns w c wd codes :
  fitted_with w c ->
  Forall (in_range c) codes ->
  exists r l,
    inverse_transform (PySeries (IntSeries wd codes)) w
    = (Return (cudf.Series_of_strings r (_dtype (self w))), logged w l).
Proof.
  intros Hf Hc. rewrite (inverse_transform_codes wd codes w c Hf).
  destruct (loop_returns c (sort_unique desc_Z codes)
              (pending_in_range c codes Hc) (map PyStr.str_int codes)
              (logged w [E_keys])) as (r & l & R).
  rewrite R, logged_logged. now exists r, ([E_keys] ++ l).
Qed.

(** A code outside the vocabulary makes the whole call fail. *)
Lemma inverse_transform_unseen w c wd codes z :
  fitted_with w c ->
  In z codes -> ~ in_range c z ->
  exists z' l,
    inverse_transform (PySeries (IntSeries wd codes)) w
    = (Raise (ValueError (unseen_msg z')), logged w l)
    /\ In z' codes /\ ~ in_range c z'.
Proof.
  intros Hf Hz Ho. rewrite (inverse_transform_codes wd codes w c Hf).
  assert (Hex : Exists (fun z => ~ in_range c z)
                  (sort_unique desc_Z codes)).
  { apply Exists_exists. exists z. split; [|assumption].
    now apply CodesFacts.desc_In. }
  destruct (loop_unseen c _ Hex (map PyStr.str_int codes)
              (logged w [E_keys])) as (z' & l & R & I & O).
  exists z', ([E_keys] ++ l). rewrite R, logged_logged.
  split; [reflexivity|]. split; [|assumption].
  exact (proj1 (CodesFacts.desc_In _ _) I).
Qed.

(** Whatever [inverse_transform] returns carries the recorded dtype. *)
Lemma bind_return {A B} (m : M A) (k : A -> M B) w b w' :
  bind m k w = (Return b, w') ->
  exists a w1, m w = (Return a, w1) /\ k a w1 = (Return b, w').
Proof.
  unfold bind. destruct (m w) as [[a|e] w1]; intros H.
  - now exists a, w1.
  - discriminate.
Qed.

Lemma inverse_transform_return y w r w' :
  inverse_transform y w = (Return r, w') ->
  exists strs, r = cudf.Series_of_strings strs (_dtype (self w)).
Proof.
  unfold inverse_transform. intros H.
  apply bind_return in H as (? & w1 & H1 & H).
  assert (S1 : self w1 = self w).
  { pose proof (preserves_check w) as P. now rewrite H1 in P. }
  destruct y as [ser|o]; [|discriminate].
  apply bind_return in H as (e & w2 & H2 & H).
  unfold get_self in H2. inversion H2; subst. clear H2.
  unfold _trans_back in H.
  apply bind_return in H as (ks & w3 & _ & H).
  apply bind_return in H as (rv & w4 & _ & H).
  apply bind_return in H as (rv' & w5 & _ & H).
  unfold ret in H. inversion H; subst.
  exists rv'. now rewrite S1.
Qed.

Lemma dtype_of_strings strs wd :
  cudf.dtype_of (cudf.Series_of_strings strs (Some (numeric wd)))
  = numeric wd.
Proof. reflexivity. Qed.

(** The codes [fit_transform] hands out lie within the vocabulary and
    stand for the labels they were given to. *)
Lemma from_strings_codes strs :
  let c := nvcategory.from_strings strs in
  Forall (in_range c) (nvcategory.values c)
  /\ map (key_at c) (nvcategory.values c) = strs.
Proof.
  cbn zeta. unfold nvcategory.from_strings, nvcategory.values, in_range,
    key_at, nvcategory.keys. cbn [nvcategory.cat_keys nvcategory.cat_values].
  split.
  - apply Forall_forall. intros z Hz. apply in_map_iff in Hz as (s & <- & Hs).
    apply CategoryFacts.sorted_keys_In in Hs.
    pose proof (CategoryFacts.key_index_range s (nvcategory.sorted_keys strs)).
    destruct (CategoryFacts.key_index_present s _ Hs). lia.
  - rewrite map_map. transitivity (map (fun s : string => s) strs);
      [|apply map_id].
    apply map_ext_in. intros s Hs.
    apply CategoryFacts.sorted_keys_In in Hs.
    destruct (CategoryFacts.key_index_present s _ Hs) as [_ E].
    now apply nth_error_nth.
Qed.

Lemma fitted_on_with y l :
  fitted_with (mkWorld (fitted_on y) l)
    (nvcategory.from_strings (str_forms y)).
Proof. now split. Qed.

Lemma digit_free_keys strs :
  digit_free strs -> digit_free (nvcategory.keys (nvcategory.from_strings strs)).
Proof.
  unfold digit_free. rewrite !Forall_forall. intros H s Hs.
  apply H. now apply CategoryFacts.sorted_keys_In.
Qed.

(** Labels without digits are strings: the text of an integer always
    has one. *)
Lemma digit_free_series y :
  digit_free (str_forms y) ->
  cudf.Series_of_strings (str_forms y) (Some (cudf.dtype_of y)) = y.
Proof.
  destruct y as [l|wd [|z l]]; intros H; try reflexivity.
  inversion H as [|? ? D _]; subst.
  now rewrite PyStrFacts.str_int_has_digit in D.
Qed.

End Decoding.

(* ================================================================== *)
(** * The calls and the states they reach                              *)
(* ================================================================== *)

Module Calls.
Import Runs Methods MethodRuns Decoding.

Lemma do_call_snd c w :
  snd (do_call c w)
  = match c with
    | Fit y => snd (fit y w)
    | Transform y => snd (transform y w)
    | FitTransform y => snd (fit_transform y w)
    | InverseTransform y => snd (inverse_transform y w)
    end.
Proof.
  destruct c as [y|y|y|y]; unfold do_call, bind, ret;
    match goal with |- context [?m y w] => destruct (m y w) as [[?|?] ?] end;
    reflexivity.
Qed.

Lemma do_call_raise c w e :
  fst (do_call c w) = Raise e ->
  match c with
  | Fit y => fst (fit y w) = Raise e
  | Transform y => fst (transform y w) = Raise e
  | FitTransform y => fst (fit_transform y w) = Raise e
  | InverseTransform y => fst (inverse_transform y w) = Raise e
  end.
Proof.
  destruct c as [y|y|y|y]; unfold do_call, bind, ret;
    match goal with |- context [?m y w] => destruct (m y w) as [[?|?] ?] end;
    cbn [fst]; congruence.
Qed.

Lemma fit_self y w : self (snd (fit y w)) = after_fit y (self w).
Proof.
  destruct y as [s|o]; [now rewrite fit_series|].
  rewrite fit_foreign. cbn [after_fit]. now destruct (f_dtype o).
Qed.

Lemma fit_transform_self y w :
  self (snd (fit_transform y w)) = after_fit y (self w).
Proof.
  destruct y as [s|o]; [now rewrite fit_transform_series|].
  rewrite fit_transform_foreign. cbn [after_fit]. now destruct (f_dtype o).
Qed.

(** A fitted encoder that a program can reach holds a vocabulary built
    by the dictionary engine and a recorded dtype. *)
Lemma reachable_fitted w :
  reachable w -> _fitted (self w) = true ->
  exists strs d,
    _cats (self w) = Some (nvcategory.from_strings strs)
    /\ _dtype (self w) = Some d.
Proof.
  induction 1 as [|w c R IH]; [discriminate|].
  rewrite do_call_snd.
  destruct c as [y|y|y|y];
    rewrite ?fit_self, ?fit_transform_self, ?preserves_transform,
      ?preserves_inverse_transform; try exact IH.
  all: destruct y as [s|o]; cbn [after_fit];
    [ intros _; now exists (str_forms s), (cudf.dtype_of s) | ].
  all: destruct (f_dtype o) as [d|]; [|exact IH]; cbn [_fitted _cats _dtype];
    intros F; destruct (IH F) as (strs & d' & Hc & _); now exists strs, d.
Qed.

Lemma reachable_fitted_with w :
  reachable w -> _fitted (self w) = true -> exists c, fitted_with w c.
Proof.
  intros R F. destruct (reachable_fitted w R F) as (strs & d & Hc & _).
  exists (nvcategory.from_strings strs). now split.
Qed.

End Calls.

(* ================================================================== *)
(** * Properties of the encoder                                        *)
(* ================================================================== *)

Import Runs Methods MethodRuns Decoding Calls.

(** ** Worked examples from the class docstring *)

Example fit_abcd_codes :
  fst (fit_transform (PySeries abcd) fresh)
  = Return (IntSeries int32 [0; 1; 2; 3]).
Proof. reflexivity. Qed.

Example transform_ca :
  fst (transform (PySeries (StrSeries ["c"; "a"])) (fitted_world abcd))
  = Return (IntSeries int64 [2; 0]).
Proof. reflexivity. Qed.

Example inverse_transform_20 :
  fst (inverse_transform (PySeries (IntSeries int32 [2; 0]))
         (fitted_world abcd))
  = Return (StrSeries ["c"; "a"]).
Proof. vm_compute. reflexivity. Qed.

(** The docstring hands [inverse_transform] a [dask_cudf] object, which
    the type test turns down. *)
Example inverse_transform_dask :
  fst (inverse_transform dask_series (fitted_world abcd))
  = Raise (TypeError
      "Input of type <class 'dask_cudf.core.Series'> is not cudf.Series").
Proof. reflexivity. Qed.

(** ** C1 *)

(** C1: on an encoder fitted on at least eleven distinct labels, none of
    which contains a digit, [inverse_transform] of the codes
    [[10; 1; 0]] returns exactly the keys at positions 10, 1 and 0: the
    codes are replaced highest first, so the text "10" is gone before
    "1" and "0" are looked for. *)
Theorem C1_decode_10_1_0 (y : Series) (w0 : world) (wd : int_dtype) :
  digit_free (str_forms y) ->
  (11 <= List.length (nodup string_dec (str_forms y)))%nat ->
  exists l,
    (fit (PySeries y) ;;
     inverse_transform (PySeries (IntSeries wd [10; 1; 0]))) w0
    = (Return (StrSeries
                 (map (key_at (nvcategory.from_strings (str_forms y)))
                    [10; 1; 0])),
       mkWorld (fitted_on y) l).
Proof.
  intros DF N. unfold bind. rewrite fit_series.
  set (c := nvcategory.from_strings (str_forms y)).
  set (w := mkWorld (fitted_on y) _).
  assert (R : Forall (in_range c) [10; 1; 0]).
  { assert (L : (11 <= List.length (nvcategory.keys c))%nat).
    { unfold c, nvcategory.from_strings, nvcategory.keys.
      cbn [nvcategory.cat_keys].
      now rewrite CategoryFacts.sorted_keys_length. }
    unfold in_range. repeat constructor; lia. }
  destruct (inverse_transform_decodes w c wd [10; 1; 0]
              (fitted_on_with y _) (digit_free_keys _ DF) R) as (l & E).
  rewrite E. exists (engine_log w ++ l). f_equal.
  enough (D : cudf.dtype_of y = object).
  { cbn [self w fitted_on _dtype]. now rewrite D. }
  destruct y as [strs|wd' [|z ints]]; [reflexivity|simpl in N; lia|].
  inversion DF as [|? ? D _]; subst.
  now rewrite PyStrFacts.str_int_has_digit in D.
Qed.

Lemma C1_witness :
  digit_free (str_forms labels11)
  /\ (11 <= List.length (nodup string_dec (str_forms labels11)))%nat
  /\ exists l,
       (fit (PySeries labels11) ;;
        inverse_transform (PySeries (IntSeries int32 [10; 1; 0]))) fresh
       = (Return (StrSeries
                    (map (key_at (nvcategory.from_strings
                                    (str_forms labels11)))
                       [10; 1; 0])),
          mkWorld (fitted_on labels11) l).
Proof.
  assert (D : digit_free (str_forms labels11)) by repeat constructor.
  assert (N : (11 <= List.length (nodup string_dec (str_forms labels11)))%nat)
    by (vm_compute; lia).
  split; [exact D|]. split; [exact N|].
  exact (C1_decode_10_1_0 labels11 fresh int32 D N).
Defined.

Example decode_labels11 :
  fst ((fit (PySeries labels11) ;;
        inverse_transform (PySeries (IntSeries int32 [10; 1; 0]))) fresh)
  = Return (StrSeries ["k"; "b"; "a"]).
Proof. vm_compute. reflexivity. Qed.

(** Replacing the lowest code first would spoil the text of code 10. *)
Example ascending_order_corrupts :
  nvstrings.replace
    (nvstrings.replace (nvstrings.replace ["10"; "1"; "0"] "0" "a") "1" "b")
    "10" "k"
  = ["ba"; "b"; "a"].
Proof. reflexivity. Qed.

(** ** C2 *)

(** C2: for labels none of which contains a digit, [fit_transform]
    followed by [inverse_transform] of the codes it returned gives the
    labels back, position by position. *)
Theorem C2_round_trip (y : Series) (w0 : world) :
  digit_free (str_forms y) ->
  exists l,
    (codes <- fit_transform (PySeries y) ;;
     inverse_transform (PySeries codes)) w0
    = (Return y, mkWorld (fitted_on y) l).
Proof.
  intros DF. unfold bind. rewrite fit_transform_series.
  set (c := nvcategory.from_strings (str_forms y)).
  set (w := mkWorld (fitted_on y) _).
  destruct (from_strings_codes (str_forms y)) as [R K]. fold c in R, K.
  destruct (inverse_transform_decodes w c int32 (nvcategory.values c)
              (fitted_on_with y _) (digit_free_keys _ DF) R) as (l & E).
  rewrite E, K. exists (engine_log w ++ l).
  unfold w at 1. cbn [self fitted_on _dtype].
  now rewrite digit_free_series.
Qed.

Lemma C2_witness :
  digit_free (str_forms abcd)
  /\ exists l,
       (codes <- fit_transform (PySeries abcd) ;;
        inverse_transform (PySeries codes)) fresh
       = (Return abcd, mkWorld (fitted_on abcd) l).
Proof.
  assert (D : digit_free (str_forms abcd)) by repeat constructor.
  split; [exact D|]. exact (C2_round_trip abcd fresh D).
Defined.

(** ** C3 *)

(** C3, as the code has it: on a fitted encoder, [transform] of a
    sequence with at least one value outside the vocabulary raises
    [KeyError] and hands back no codes; and whatever [transform] returns,
    on any argument and encoder, holds no [-1]. *)
Theorem C3_unseen_raises_KeyError (w : world) (c : nvcategory.t)
    (y : Series) :
  fitted_with w c ->
  Exists (fun s => ~ In s (nvcategory.keys c)) (str_forms y) ->
  (exists l,
     transform (PySeries y) w
     = (Raise (KeyError "Attempted to encode unseen key"), logged w l))
  /\ (forall y' w',
        match fst (transform y' w') with
        | Return s => cudf.contains (-1) s = false
        | Raise _ => True
        end).
Proof.
  intros Hf Hex. split.
  - rewrite (transform_fitted y w c Hf). cbn zeta.
    replace (existsb _ _) with true; [eauto|].
    symmetry. apply existsb_exists. apply Exists_exists in Hex as (s & Hs & Hn).
    exists (-1). split; [|reflexivity].
    apply in_map_iff. exists s. split; [|assumption].
    apply CategoryFacts.key_index_absent.
    now rewrite CategoryFacts.sorted_keys_In.
  - intros y' w'.
    destruct (transform y' w') as [[s|e] w''] eqn:H; cbn [fst]; [|exact I].
    unfold transform in H.
    repeat (apply bind_return in H as (? & ? & _ & H)).
    destruct (cudf.contains _ _) eqn:C; [discriminate|].
    unfold ret in H. inversion H; subst. exact C.
Qed.

Lemma C3_witness :
  fitted_with (fitted_world abcd) (nvcategory.from_strings (str_forms abcd))
  /\ Exists (fun s => ~ In s (nvcategory.keys
                               (nvcategory.from_strings (str_forms abcd))))
       (str_forms (StrSeries ["z"]))
  /\ (exists l,
        transform (PySeries (StrSeries ["z"])) (fitted_world abcd)
        = (Raise (KeyError "Attempted to encode unseen key"),
           logged (fitted_world abcd) l))
  /\ (forall y' w',
        match fst (transform y' w') with
        | Return s => cudf.contains (-1) s = false
        | Raise _ => True
        end).
Proof.
  assert (F : fitted_with (fitted_world abcd)
                (nvcategory.from_strings (str_forms abcd)))
    by (split; reflexivity).
  assert (U : Exists (fun s => ~ In s (nvcategory.keys
                                (nvcategory.from_strings (str_forms abcd))))
                (str_forms (StrSeries ["z"])))
    by (constructor; vm_compute; intuition discriminate).
  split; [exact F|]. split; [exact U|].
  exact (C3_unseen_raises_KeyError (fitted_world abcd) _ (StrSeries ["z"]) F U).
Defined.

(** No exception of a class named [UnseenLabelError] comes out of
    [transform]: the unseen label "z" raises [KeyError]. *)
Lemma C3_counterexample :
  fst (transform (PySeries (StrSeries ["z"])) (fitted_world abcd))
  = Raise (KeyError "Attempted to encode unseen key")
  /\ ~ raises (fst (transform (PySeries (StrSeries ["z"]))
                      (fitted_world abcd)))
         "UnseenLabelError".
Proof.
  split; [reflexivity|].
  intros (e & H & C). vm_compute in H. inversion H; subst. discriminate C.
Qed.

Import Runs Methods MethodRuns Decoding Calls.

(** ** C4 *)

(** The codes [fit] then [transform] give on the fitting data. *)
Lemma fit_then_transform_series y w :
  (fit (PySeries y) ;; transform (PySeries y)) w
  = (Return (IntSeries int64
               (nvcategory.values (nvcategory.from_strings (str_forms y)))),
     mkWorld (fitted_on y)
       (engine_log w
        ++ [E_from_strings; E_from_strings; E_keys; E_set_keys; E_values])).
Proof.
  unfold bind. rewrite fit_series.
  rewrite (transform_fitted y _ _ (fitted_on_with y _)). cbn zeta.
  change (nvcategory.sorted_keys
            (nvcategory.keys (nvcategory.from_strings (str_forms y))))
    with (nvcategory.sorted_keys (nvcategory.sorted_keys (str_forms y))).
  rewrite CategoryFacts.sorted_keys_idem.
  change (map (fun s => nvcategory.key_index s
                          (nvcategory.sorted_keys (str_forms y)))
            (str_forms y))
    with (nvcategory.values (nvcategory.from_strings (str_forms y))).
  destruct (from_strings_codes (str_forms y)) as [R _].
  replace (existsb _ _) with false.
  - unfold logged. cbn [self engine_log]. now rewrite <- app_assoc.
  - symmetry. apply not_true_is_false. intros H.
    apply existsb_exists in H as (z & Hz & E). apply Z.eqb_eq in E. subst z.
    rewrite Forall_forall in R. specialize (R _ Hz). unfold in_range in R. lia.
Qed.

(** C4: [fit_transform] returns the codes that [fit] followed by
    [transform] returns and leaves the encoder in the same state; it
    asks the engine for the vocabulary once and for its values, never
    for a lookup against other keys, and it never raises the unseen-key
    error. *)
Theorem C4_fit_transform_fused (y : pyobj) (w : world) :
  codes_of (fst (fit_transform y w))
  = codes_of (fst ((fit y ;; transform y) w))
  /\ self (snd (fit_transform y w)) = self (snd ((fit y ;; transform y) w))
  /\ engine_log (snd (fit_transform y w))
     = engine_log w ++ match y with
                       | PySeries _ => [E_from_strings; E_values]
                       | PyForeign _ => []
                       end
  /\ ~ raises (fst (fit_transform y w)) "KeyError".
Proof.
  destruct y as [s|o].
  - rewrite fit_then_transform_series, fit_transform_series. cbn [fst snd].
    repeat split. intros (e & H & _). discriminate H.
  - unfold bind. rewrite fit_transform_foreign, fit_foreign.
    destruct (f_dtype o) as [d|]; cbn [fst snd self engine_log];
      rewrite app_nil_r; repeat split;
      intros (e & H & C); inversion H; subst; discriminate C.
Qed.

(** The two paths differ in the integer width of the Series they
    return. *)
Example fused_int32_split_int64 :
  fst (fit_transform (PySeries abcd) fresh)
  = Return (IntSeries int32 [0; 1; 2; 3])
  /\ fst ((fit (PySeries abcd) ;; transform (PySeries abcd)) fresh)
     = Return (IntSeries int64 [0; 1; 2; 3]).
Proof. split; reflexivity. Qed.

(** ** C5 *)

(** C5: on a fitted encoder, [inverse_transform] of codes one of which
    is negative or not below the vocabulary size raises [ValueError],
    with the message "y contains previously unseen label" followed by
    such a code, and returns nothing. *)
Theorem C5_out_of_range_ValueError (w : world) (c : nvcategory.t)
    (wd : int_dtype) (codes : list Z) (z : Z) :
  fitted_with w c ->
  In z codes ->
  z < 0 \/ z >= Z.of_nat (List.length (nvcategory.keys c)) ->
  exists z' l,
    inverse_transform (PySeries (IntSeries wd codes)) w
    = (Raise (ValueError
                (String.append "y contains previously unseen label "
                   (PyStr.str_int z'))),
       logged w l)
    /\ In z' codes
    /\ (z' < 0 \/ z' >= Z.of_nat (List.length (nvcategory.keys c))).
Proof.
  intros Hf Hz Ho.
  destruct (inverse_transform_unseen w c wd codes z Hf Hz) as (z' & l & E & I & O).
  { unfold in_range. lia. }
  exists z', l. split; [exact E|]. split; [exact I|].
  unfold in_range in O. lia.
Qed.

Lemma C5_witness :
  fitted_with (fitted_world abcd) (nvcategory.from_strings (str_forms abcd))
  /\ In 7 [2; 7; -1]
  /\ (7 < 0
      \/ 7 >= Z.of_nat (List.length
                 (nvcategory.keys
                    (nvcategory.from_strings (str_forms abcd)))))
  /\ exists z' l,
       inverse_transform (PySeries (IntSeries int32 [2; 7; -1]))
         (fitted_world abcd)
       = (Raise (ValueError
                   (String.append "y contains previously unseen label "
                      (PyStr.str_int z'))),
          logged (fitted_world abcd) l)
       /\ In z' [2; 7; -1]
       /\ (z' < 0
           \/ z' >= Z.of_nat (List.length
                       (nvcategory.keys
                          (nvcategory.from_strings (str_forms abcd))))).
Proof.
  assert (F : fitted_with (fitted_world abcd)
                (nvcategory.from_strings (str_forms abcd)))
    by (split; reflexivity).
  assert (I : In 7 [2; 7; -1]) by (simpl; auto).
  assert (O : 7 < 0
              \/ 7 >= Z.of_nat (List.length
                         (nvcategory.keys
                            (nvcategory.from_strings (str_forms abcd)))))
    by (right; vm_compute; discriminate).
  split; [exact F|]. split; [exact I|]. split; [exact O|].
  exact (C5_out_of_range_ValueError (fitted_world abcd) _ int32
           [2; 7; -1] 7 F I O).
Defined.

Example out_of_range_7 :
  fst (inverse_transform (PySeries (IntSeries int32 [2; 7; -1]))
         (fitted_world abcd))
  = Raise (ValueError "y contains previously unseen label 7").
Proof. vm_compute. reflexivity. Qed.

(** ** C6 *)

(** C6, as the code has it: on an encoder that is not fitted, [transform]
    and [inverse_transform] raise [RuntimeError] on every argument,
    before any call to the engines and without touching the encoder. *)
Theorem C6_not_fitted_RuntimeError (w : world) (y : pyobj) :
  _fitted (self w) = false ->
  transform y w = (Raise (RuntimeError "Model must first be .fit()"), w)
  /\ inverse_transform y w
     = (Raise (RuntimeError "Model must first be .fit()"), w).
Proof.
  intros H. split.
  - now apply transform_unfitted.
  - now apply inverse_transform_unfitted.
Qed.

Lemma C6_witness :
  _fitted (self fresh) = false
  /\ transform (PySeries abcd) fresh
     = (Raise (RuntimeError "Model must first be .fit()"), fresh)
  /\ inverse_transform (PySeries abcd) fresh
     = (Raise (RuntimeError "Model must first be .fit()"), fresh).
Proof.
  split; [reflexivity|].
  exact (C6_not_fitted_RuntimeError fresh (PySeries abcd) eq_refl).
Defined.

(** No exception of a class named [NotFittedError] comes out of a fresh
    encoder: the guard raises [RuntimeError]. *)
Lemma C6_counterexample :
  fst (transform (PySeries abcd) fresh)
  = Raise (RuntimeError "Model must first be .fit()")
  /\ ~ raises (fst (transform (PySeries abcd) fresh)) "NotFittedError"
  /\ ~ raises (fst (inverse_transform (PySeries (IntSeries int32 [0])) fresh))
         "NotFittedError".
Proof.
  split; [reflexivity|].
  split; intros (e & H & C); vm_compute in H; inversion H; subst;
    discriminate C.
Qed.

(** ** C7 *)

(** C7: for integer labels, [fit] and [fit_transform] record the integer
    dtype; whatever [inverse_transform] then returns, on any argument,
    has that dtype and not [object]; and on the codes [fit_transform]
    returned it does return. *)
Theorem C7_dtype_preserved (wd : int_dtype) (ints : list Z) (w0 : world) :
  _dtype (self (snd (fit (PySeries (IntSeries wd ints)) w0)))
  = Some (numeric wd)
  /\ _dtype (self (snd (fit_transform (PySeries (IntSeries wd ints)) w0)))
     = Some (numeric wd)
  /\ (forall y,
        match fst (inverse_transform y
                     (snd (fit (PySeries (IntSeries wd ints)) w0))) with
        | Return r => cudf.dtype_of r = numeric wd
        | Raise _ => True
        end)
  /\ (forall y,
        match fst (inverse_transform y
                     (snd (fit_transform (PySeries (IntSeries wd ints)) w0)))
        with
        | Return r => cudf.dtype_of r = numeric wd
        | Raise _ => True
        end)
  /\ exists r w',
       (codes <- fit_transform (PySeries (IntSeries wd ints)) ;;
        inverse_transform (PySeries codes)) w0
       = (Return r, w')
       /\ cudf.dtype_of r = numeric wd.
Proof.
  rewrite fit_series, fit_transform_series. cbn [snd self fitted_on _dtype].
  split; [reflexivity|]. split; [reflexivity|].
  split; [|split].
  - intros y.
    destruct (inverse_transform y _) as [[r|e] w'] eqn:H; cbn [fst]; [|exact I].
    apply inverse_transform_return in H as (strs & ->). reflexivity.
  - intros y.
    destruct (inverse_transform y _) as [[r|e] w'] eqn:H; cbn [fst]; [|exact I].
    apply inverse_transform_return in H as (strs & ->). reflexivity.
  - unfold bind. rewrite fit_transform_series.
    set (y := IntSeries wd ints).
    set (w := mkWorld (fitted_on y) _).
    destruct (from_strings_codes (str_forms y)) as [R _].
    destruct (inverse_transform_returns w _ int32 _
                (fitted_on_with y (engine_log w)) R) as (r & l & E).
    rewrite E. eexists _, _. split; reflexivity.
Qed.

(** The dtype comes back; the values need not, as the labels have
    digits. *)
Example int_labels_come_back_as_int64 :
  fst ((codes <- fit_transform (PySeries int_labels) ;;
        inverse_transform (PySeries codes)) fresh)
  = Return (IntSeries int64 [10; 210; 10; 310]).
Proof. vm_compute. reflexivity. Qed.

(** ** C8 *)

(** C8, as the code has it: [transform] and [inverse_transform] never
    change the encoder, whether they return or raise; [fit] and
    [fit_transform] store the dtype of their argument first, so when
    they raise for want of a [dtype] attribute the encoder is as before,
    and when they raise later the new dtype stays behind, the vocabulary
    and the fitted flag being as before. *)
Theorem C8_state_after_failed_call (c : call) (w : world) (e : exn) :
  fst (do_call c w) = Raise e ->
  match c with
  | Transform _ | InverseTransform _ =>
      self (snd (do_call c w)) = self w
  | Fit y | FitTransform y =>
      match input_dtype y with
      | None => self (snd (do_call c w)) = self w
      | Some d =>
          self (snd (do_call c w))
          = mkEncoder (_cats (self w)) (Some d) (_fitted (self w))
      end
  end.
Proof.
  intros H. apply do_call_raise in H. rewrite do_call_snd.
  destruct c as [y|y|y|y].
  - destruct y as [s|o]; [now rewrite fit_series in H|].
    rewrite fit_self. cbn [after_fit input_dtype].
    now destruct (f_dtype o).
  - apply preserves_transform.
  - destruct y as [s|o]; [now rewrite fit_transform_series in H|].
    rewrite fit_transform_self. cbn [after_fit input_dtype].
    now destruct (f_dtype o).
  - apply preserves_inverse_transform.
Qed.

Lemma C8_witness :
  fst (do_call (Fit dask_series) (fitted_world int_labels))
  = Raise (no_attribute "Series" "data")
  /\ self (snd (do_call (Fit dask_series) (fitted_world int_labels)))
     = mkEncoder (_cats (self (fitted_world int_labels))) (Some object)
         (_fitted (self (fitted_world int_labels))).
Proof.
  split; [reflexivity|].
  exact (C8_state_after_failed_call (Fit dask_series)
           (fitted_world int_labels) (no_attribute "Series" "data")
           eq_refl).
Defined.

(** A failed [fit] is seen afterwards: the encoder fitted on integers
    has lost their dtype. *)
Lemma C8_counterexample :
  fst (do_call (Fit dask_series) (fitted_world int_labels))
  = Raise (AttributeError "'Series' object has no attribute 'data'")
  /\ self (snd (do_call (Fit dask_series) (fitted_world int_labels)))
     <> self (fitted_world int_labels).
Proof. split; [reflexivity | discriminate]. Qed.

Example failed_fit_changes_decoding :
  fst (inverse_transform (PySeries (IntSeries int32 [0]))
         (fitted_world int_labels))
  = Return (IntSeries int64 [10])
  /\ fst (inverse_transform (PySeries (IntSeries int32 [0]))
            (snd (do_call (Fit dask_series) (fitted_world int_labels))))
     = Return (StrSeries ["10"]).
Proof. split; vm_compute; reflexivity. Qed.

(** ** C9 *)

(** C9: on a fitted encoder, [inverse_transform] of an argument that is
    not a [cudf.Series] raises [TypeError] and returns nothing. *)
Theorem C9_not_a_Series_TypeError (w : world) (o : foreign) :
  _fitted (self w) = true ->
  inverse_transform (PyForeign o) w
  = (Raise (TypeError
              (String.append "Input of type "
                 (String.append (type_repr (PyForeign o))
                    " is not cudf.Series"))), w).
Proof. apply inverse_transform_foreign. Qed.

Lemma C9_witness :
  _fitted (self (fitted_world abcd)) = true
  /\ inverse_transform py_list (fitted_world abcd)
     = (Raise (TypeError "Input of type <class 'list'> is not cudf.Series"),
        fitted_world abcd).
Proof.
  split; [reflexivity|].
  exact (C9_not_a_Series_TypeError (fitted_world abcd)
           (mkForeign EmptyString "list" None) eq_refl).
Defined.

(** ** C10 *)

(** C10: there are labels with digits for which [inverse_transform] of
    the codes [fit_transform] returned, all within the vocabulary, does
    not give the labels back. *)
Theorem C10_digits_break_round_trip :
  exists (y : Series) (codes : list Z) (r : Series),
    Exists (fun s => PyStr.has_digit s = true) (str_forms y)
    /\ fst (fit_transform (PySeries y) fresh) = Return (IntSeries int32 codes)
    /\ Forall (in_range (nvcategory.from_strings (str_forms y))) codes
    /\ fst ((codes <- fit_transform (PySeries y) ;;
             inverse_transform (PySeries codes)) fresh) = Return r
    /\ r <> y.
Proof.
  exists digit_labels, [0; 1], (StrSeries ["a"; "ba"]).
  split; [right; left; reflexivity|].
  split; [reflexivity|].
  split; [repeat constructor; vm_compute; congruence|].
  split; [vm_compute; reflexivity | discriminate].
Qed.

(* ================================================================== *)
(** * Further facts about the vocabulary and the codes                 *)
(* ================================================================== *)

Module VocabularyFacts.
Import nvcategory Runs Methods MethodRuns Decoding Calls.

(** The text of an integer determines the integer. *)
Lemma str_int_inj_all a b : PyStr.str_int a = PyStr.str_int b -> a = b.
Proof.
  unfold PyStr.str_int.
  destruct (Z.ltb_spec a 0) as [Ha|Ha], (Z.ltb_spec b 0) as [Hb|Hb];
    intros E.
  - inversion E as [E']. apply PyStrFacts.str_N_inj in E'. lia.
  - destruct (PyStrFacts.str_N_head (Z.to_N b)) as (c & s & Eb & D).
    rewrite Eb in E. inversion E; subst. discriminate D.
  - destruct (PyStrFacts.str_N_head (Z.to_N a)) as (c & s & Ea & D).
    rewrite Ea in E. inversion E; subst. discriminate D.
  - apply PyStrFacts.str_N_inj in E. lia.
Qed.

Lemma key_index_nonneg_In s ks : 0 <= key_index s ks -> In s ks.
Proof.
  intros H. destruct (in_dec string_dec s ks) as [I|N]; [exact I|].
  rewrite (CategoryFacts.key_index_absent s ks N) in H. lia.
Qed.

Lemma key_index_unseen s ks : key_index s ks = -1 <-> ~ In s ks.
Proof.
  split.
  - intros E I. destruct (CategoryFacts.key_index_present s ks I). lia.
  - apply CategoryFacts.key_index_absent.
Qed.

(** Two keys at the same position are the same key. *)
Lemma key_index_inj s t ks :
  In s ks -> key_index s ks = key_index t ks -> s = t.
Proof.
  intros Hs E. destruct (CategoryFacts.key_index_present s ks Hs) as [P Ns].
  assert (Ht : In t ks) by (apply key_index_nonneg_In; lia).
  destruct (CategoryFacts.key_index_present t ks Ht) as [_ Nt].
  rewrite E in Ns. congruence.
Qed.

(** Among keys without duplicates, the key at a position is found at
    that position. *)
Lemma key_index_nth ks d :
  NoDup ks ->
  forall i, (i < List.length ks)%nat ->
            key_index (nth i ks d) ks = Z.of_nat i.
Proof.
  induction 1 as [|k ks Hk ND IH]; intros i Hi; [simpl in Hi; lia|].
  destruct i as [|i]; cbn [nth key_index].
  - now rewrite String.eqb_refl.
  - simpl in Hi. assert (Hi' : (i < List.length ks)%nat) by lia.
    destruct (String.eqb_spec (nth i ks d) k) as [E|_].
    + exfalso. apply Hk. rewrite <- E. now apply nth_In.
    + rewrite (IH i Hi'). destruct (Z.ltb_spec (Z.of_nat i) 0); lia.
Qed.

Lemma key_index_key_at c z :
  NoDup (keys c) -> in_range c z -> key_index (key_at c z) (keys c) = z.
Proof.
  unfold in_range, key_at. intros ND H.
  rewrite key_index_nth by (assumption || lia). lia.
Qed.

Lemma from_strings_keys_NoDup strs : NoDup (keys (from_strings strs)).
Proof. apply CategoryFacts.sorted_keys_NoDup. Qed.

Lemma from_strings_keys_In strs s :
  In s (keys (from_strings strs)) <-> In s strs.
Proof. apply CategoryFacts.sorted_keys_In. Qed.

Lemma from_strings_keys_fixed strs :
  sorted_keys (keys (from_strings strs)) = keys (from_strings strs).
Proof. apply CategoryFacts.sorted_keys_idem. Qed.

(** Every position of the vocabulary is the code of some label. *)
Lemma from_strings_dense strs z :
  in_range (from_strings strs) z -> In z (values (from_strings strs)).
Proof.
  intros H. set (c := from_strings strs).
  destruct (key_at_nth c z H) as [_ I].
  apply (proj1 (from_strings_keys_In strs _)) in I.
  unfold values, from_strings. cbn [cat_values].
  apply in_map_iff. exists (key_at c z). split; [|exact I].
  apply (key_index_key_at c z); [apply from_strings_keys_NoDup | exact H].
Qed.

(** What [transform] answers on a fitted encoder, by cases on whether
    every label is in the vocabulary. *)
Lemma transform_cases y w c :
  fitted_with w c ->
  let ks := sorted_keys (keys c) in
  let w' := logged w [E_from_strings; E_keys; E_set_keys; E_values] in
  (Forall (fun s => In s (keys c)) (str_forms y)
   /\ transform (PySeries y) w
      = (Return (IntSeries int64
                   (map (fun s => key_index s ks) (str_forms y))), w'))
  \/ (Exists (fun s => ~ In s (keys c)) (str_forms y)
      /\ transform (PySeries y) w
         = (Raise (KeyError "Attempted to encode unseen key"), w')).
Proof.
  intros Hf. cbn zeta. rewrite (transform_fitted y w c Hf). cbn zeta.
  destruct (existsb _ _) eqn:E.
  - right. split; [|reflexivity].
    apply existsb_exists in E as (z & Hz & Ez). apply Z.eqb_eq in Ez.
    subst z. apply in_map_iff in Hz as (s & Hs & I).
    apply Exists_exists. exists s. split; [exact I|].
    apply (proj1 (key_index_unseen _ _)) in Hs.
    intros K. apply Hs. now apply CategoryFacts.sorted_keys_In.
  - left. split; [|reflexivity].
    apply Forall_forall. intros s I.
    destruct (in_dec string_dec s (keys c)) as [K|K]; [exact K|exfalso].
    assert (T : existsb (fun z => z =? -1)
                  (map (fun s => key_index s (sorted_keys (keys c)))
                     (str_forms y)) = true).
    { apply existsb_exists. exists (-1). split; [|reflexivity].
      apply in_map_iff. exists s. split; [|exact I].
      apply key_index_unseen. now rewrite CategoryFacts.sorted_keys_In. }
    congruence.
Qed.

(** The loop stops at the highest code outside the vocabulary. *)
Lemma loop_unseen_highest c pending :
  StronglySorted (fun a b => b < a) pending ->
  Exists (fun z => ~ in_range c z) pending ->
  forall reverted w, exists z l,
    _trans_back_loop (Some c) (keys c) (map IntVal pending) reverted w
    = (Raise (ValueError (unseen_msg z)), logged w l)
    /\ In z pending /\ ~ in_range c z
    /\ Forall (fun x => ~ in_range c x -> x <= z) pending.
Proof.
  unfold in_range.
  induction pending as [|h tl IH]; intros Hs Hex reverted w.
  - inversion Hex.
  - inversion Hs as [|? ? Hs' Hlt]; subst.
    assert (Htl : Forall (fun x => x <= h) tl).
    { eapply Forall_impl; [|exact Hlt]. cbn. intros; lia. }
    cbn [map]. rewrite loop_cons.
    destruct (Z.ltb_spec h 0) as [Hn|Hn].
    { exists h, []. rewrite logged_nil.
      split; [reflexivity|]. split; [now left|]. split; [lia|].
      constructor; [lia|]. eapply Forall_impl; [|exact Htl]. cbn. auto. }
    destruct (Z.geb_spec h (Z.of_nat (List.length (keys c)))) as [Hg|Hg].
    { exists h, [E_keys].
      split; [reflexivity|]. split; [now left|]. split; [lia|].
      constructor; [lia|]. eapply Forall_impl; [|exact Htl]. cbn. auto. }
    destruct (nth_error (keys c) (Z.to_nat h)) as [k|] eqn:E.
    2:{ apply nth_error_None in E. lia. }
    inversion Hex as [? ? Hh|? ? Hex']; subst; [lia|].
    destruct (IH Hs' Hex' (nvstrings.replace reverted (PyStr.str_int h) k)
                (logged (logged w [E_keys]) [E_replace]))
      as (z & l & R & I & O & M).
    exists z, (([E_keys] ++ [E_replace]) ++ l).
    rewrite R, !logged_logged.
    split; [reflexivity|]. split; [now right|]. split; [exact O|].
    constructor; [intros; lia | exact M].
Qed.

Lemma replace_length strs pat repl :
  List.length (nvstrings.replace strs pat repl) = List.length strs.
Proof. apply length_map. Qed.

(** The loop keeps one text per position. *)
Lemma loop_length cats ks ords :
  forall reverted w r w',
    _trans_back_loop cats ks ords reverted w = (Return r, w') ->
    List.length r = List.length reverted.
Proof.
  induction ords as [|v ords IH]; intros reverted w r w' H;
    cbn [_trans_back_loop] in H.
  - unfold ret in H. now inversion H.
  - apply bind_return in H as (neg & w1 & _ & H).
    apply bind_return in H as (bad & w2 & _ & H).
    destruct bad; [discriminate|].
    apply bind_return in H as (k & w3 & _ & H).
    apply bind_return in H as (rv & w4 & Hr & H).
    unfold nv_replace, bind, engine, ret in Hr. inversion Hr; subst.
    apply IH in H. now rewrite H, replace_length.
Qed.

(** A fitted encoder that a program can reach holds keys without
    duplicates, in the order the engine keeps them. *)
Lemma reachable_keys w c :
  reachable w -> fitted_with w c ->
  NoDup (keys c) /\ sorted_keys (keys c) = keys c.
Proof.
  intros R [F C]. destruct (reachable_fitted w R F) as (strs & d & Hc & _).
  rewrite Hc in C. inversion C; subst. split.
  - apply from_strings_keys_NoDup.
  - apply from_strings_keys_fixed.
Qed.

Lemma fitted_with_logged w c l : fitted_with w c -> fitted_with (logged w l) c.
Proof. intros H. exact H. Qed.

(** On labels of the vocabulary [transform] returns their positions. *)
Lemma transform_known y w c :
  reachable w -> fitted_with w c ->
  Forall (fun s => In s (keys c)) (str_forms y) ->
  transform (PySeries y) w
  = (Return (IntSeries int64
               (map (fun s => key_index s (keys c)) (str_forms y))),
     logged w [E_from_strings; E_keys; E_set_keys; E_values]).
Proof.
  intros R Hf Hin. destruct (reachable_keys w c R Hf) as [_ Fx].
  destruct (transform_cases y w c Hf) as [[_ E]|[Hex _]].
  - rewrite E, Fx. reflexivity.
  - exfalso. apply Exists_exists in Hex as (s & Hs & Hn).
    rewrite Forall_forall in Hin. exact (Hn (Hin s Hs)).
Qed.

Lemma known_codes c strs :
  Forall (fun s => In s (keys c)) strs ->
  Forall (in_range c) (map (fun s => key_index s (keys c)) strs)
  /\ map (key_at c) (map (fun s => key_index s (keys c)) strs) = strs.
Proof.
  intros Hin. rewrite Forall_forall in Hin. split.
  - apply Forall_forall. intros z Hz.
    apply in_map_iff in Hz as (s & <- & Hs).
    pose proof (CategoryFacts.key_index_range s (keys c)).
    destruct (CategoryFacts.key_index_present s _ (Hin s Hs)).
    unfold in_range. lia.
  - rewrite map_map. transitivity (map (fun s : string => s) strs);
      [|apply map_id].
    apply map_ext_in. intros s Hs.
    destruct (CategoryFacts.key_index_present s _ (Hin s Hs)) as [_ E].
    unfold key_at. now apply nth_error_nth.
Qed.

Lemma reachable_fitted_world y : reachable (fitted_world y).
Proof.
  pose proof (reach_call fresh (Fit (PySeries y)) reach_fresh) as R.
  rewrite do_call_snd in R. exact R.
Qed.

End VocabularyFacts.

(* ================================================================== *)
(** * Further properties of the encoder                                *)
(* ================================================================== *)

Import Runs Methods MethodRuns Decoding Calls VocabularyFacts.

(** ** The vocabulary [fit] builds *)

(** X1: [fit] on a Series never raises and replaces whatever the encoder
    held: afterwards it is fitted, records the dtype of the argument,
    and its keys are the string forms of the labels, each once. *)
Theorem X1_fit_builds_vocabulary (y : Series) (w : world) :
  exists c,
    fst (fit (PySeries y) w) = Return tt
    /\ self (snd (fit (PySeries y) w))
       = mkEncoder (Some c) (Some (cudf.dtype_of y)) true
    /\ NoDup (nvcategory.keys c)
    /\ (forall s, In s (nvcategory.keys c) <-> In s (str_forms y))
    /\ List.length (nvcategory.keys c)
       = List.length (nodup string_dec (str_forms y)).
Proof.
  exists (nvcategory.from_strings (str_forms y)). rewrite fit_series.
  split; [reflexivity|]. split; [reflexivity|].
  split; [apply from_strings_keys_NoDup|].
  split; [intros s; apply from_strings_keys_In|].
  apply CategoryFacts.sorted_keys_length.
Qed.

(** ** The codes [fit_transform] hands out *)

(** X2: [fit_transform] on a Series returns one [int32] code per label,
    in the order of the labels; each code is a position of the
    vocabulary it has just stored, and the key at that position is the
    string form of the label. *)
Theorem X2_fit_transform_codes_aligned (y : Series) (w : world) :
  exists c codes,
    fst (fit_transform (PySeries y) w) = Return (IntSeries int32 codes)
    /\ _cats (self (snd (fit_transform (PySeries y) w))) = Some c
    /\ List.length codes = List.length (str_forms y)
    /\ Forall (in_range c) codes
    /\ map (key_at c) codes = str_forms y.
Proof.
  exists (nvcategory.from_strings (str_forms y)),
    (nvcategory.values (nvcategory.from_strings (str_forms y))).
  rewrite fit_transform_series.
  split; [reflexivity|]. split; [reflexivity|].
  split; [apply CategoryFacts.from_strings_values_length|].
  apply from_strings_codes.
Qed.

(** X3: two positions get the same code from [fit_transform] exactly
    when their labels have the same string form. *)
Theorem X3_equal_codes_equal_labels (y : Series) (w : world)
    (codes : list Z) (i j : nat) :
  fst (fit_transform (PySeries y) w) = Return (IntSeries int32 codes) ->
  (i < List.length codes)%nat -> (j < List.length codes)%nat ->
  nth i codes 0 = nth j codes 0
  <-> nth i (str_forms y) EmptyString = nth j (str_forms y) EmptyString.
Proof.
  rewrite fit_transform_series. cbn [fst]. intros E Hi Hj.
  assert (C : codes = nvcategory.values
                        (nvcategory.from_strings (str_forms y)))
    by congruence.
  subst codes. clear E.
  rewrite CategoryFacts.from_strings_values_length in Hi, Hj.
  unfold nvcategory.values, nvcategory.from_strings.
  cbn [nvcategory.cat_values].
  set (ks := nvcategory.sorted_keys (str_forms y)).
  set (f := fun s => nvcategory.key_index s ks).
  replace (nth i (map f (str_forms y)) 0)
    with (f (nth i (str_forms y) EmptyString)).
  2:{ rewrite <- (map_nth f (str_forms y) EmptyString i).
      apply nth_indep. now rewrite length_map. }
  replace (nth j (map f (str_forms y)) 0)
    with (f (nth j (str_forms y) EmptyString)).
  2:{ rewrite <- (map_nth f (str_forms y) EmptyString j).
      apply nth_indep. now rewrite length_map. }
  split; [|now intros ->].
  apply key_index_inj. apply CategoryFacts.sorted_keys_In. now apply nth_In.
Qed.

Lemma X3_witness :
  fst (fit_transform (PySeries int_labels) fresh)
  = Return (IntSeries int32 [0; 1; 0; 2])
  /\ (0 < List.length [0; 1; 0; 2])%nat
  /\ (2 < List.length [0; 1; 0; 2])%nat
  /\ (nth 0 [0; 1; 0; 2] 0 = nth 2 [0; 1; 0; 2] 0
      <-> nth 0 (str_forms int_labels) EmptyString
          = nth 2 (str_forms int_labels) EmptyString).
Proof.
  assert (E : fst (fit_transform (PySeries int_labels) fresh)
              = Return (IntSeries int32 [0; 1; 0; 2])) by reflexivity.
  assert (A : (0 < List.length [0; 1; 0; 2])%nat) by (simpl; lia).
  assert (B : (2 < List.length [0; 1; 0; 2])%nat) by (simpl; lia).
  split; [exact E|]. split; [exact A|]. split; [exact B|].
  exact (X3_equal_codes_equal_labels int_labels fresh [0; 1; 0; 2] 0 2 E A B).
Defined.

(** X4: integer labels are told apart: on a Series of integers two
    positions get the same code exactly when they hold the same
    integer, the coercion to text losing nothing. *)
Theorem X4_integer_labels_distinct (wd : int_dtype) (ints : list Z)
    (w : world) (codes : list Z) (i j : nat) :
  fst (fit_transform (PySeries (IntSeries wd ints)) w)
  = Return (IntSeries int32 codes) ->
  (i < List.length ints)%nat -> (j < List.length ints)%nat ->
  nth i codes 0 = nth j codes 0 <-> nth i ints 0 = nth j ints 0.
Proof.
  rewrite fit_transform_series. cbn [fst]. intros E Hi Hj.
  assert (C : codes = nvcategory.values
                        (nvcategory.from_strings
                           (str_forms (IntSeries wd ints))))
    by congruence.
  subst codes. clear E.
  unfold nvcategory.values, nvcategory.from_strings.
  cbn [nvcategory.cat_values str_forms].
  set (ks := nvcategory.sorted_keys (map PyStr.str_int ints)).
  rewrite map_map.
  set (f := fun z => nvcategory.key_index (PyStr.str_int z) ks).
  replace (nth i (map f ints) 0) with (f (nth i ints 0)).
  2:{ rewrite <- (map_nth f ints 0 i).
      apply nth_indep. now rewrite length_map. }
  replace (nth j (map f ints) 0) with (f (nth j ints 0)).
  2:{ rewrite <- (map_nth f ints 0 j).
      apply nth_indep. now rewrite length_map. }
  split; [|now intros ->].
  intros E. apply str_int_inj_all. revert E. apply key_index_inj.
  apply CategoryFacts.sorted_keys_In. apply in_map. now apply nth_In.
Qed.

Lemma X4_witness :
  fst (fit_transform (PySeries int_labels) fresh)
  = Return (IntSeries int32 [0; 1; 0; 2])
  /\ (1 < List.length [10; 20; 10; 30])%nat
  /\ (3 < List.length [10; 20; 10; 30])%nat
  /\ (nth 1 [0; 1; 0; 2] 0 = nth 3 [0; 1; 0; 2] 0
      <-> nth 1 [10; 20; 10; 30] 0 = nth 3 [10; 20; 10; 30] 0).
Proof.
  assert (E : fst (fit_transform (PySeries int_labels) fresh)
              = Return (IntSeries int32 [0; 1; 0; 2])) by reflexivity.
  assert (A : (1 < List.length [10; 20; 10; 30])%nat) by (simpl; lia).
  assert (B : (3 < List.length [10; 20; 10; 30])%nat) by (simpl; lia).
  split; [exact E|]. split; [exact A|]. split; [exact B|].
  exact (X4_integer_labels_distinct int64 [10; 20; 10; 30] fresh
           [0; 1; 0; 2] 1 3 E A B).
Defined.

(** X5: the codes are dense: every integer from 0 up to the number of
    distinct labels, that number excluded, is the code of some
    position, and no other integer is. *)
Theorem X5_codes_are_dense (y : Series) (w : world) (codes : list Z)
    (z : Z) :
  fst (fit_transform (PySeries y) w) = Return (IntSeries int32 codes) ->
  In z codes
  <-> 0 <= z < Z.of_nat (List.length (nodup string_dec (str_forms y))).
Proof.
  rewrite fit_transform_series. cbn [fst]. intros E.
  assert (C : codes = nvcategory.values
                        (nvcategory.from_strings (str_forms y)))
    by congruence.
  subst codes. clear E.
  rewrite <- CategoryFacts.sorted_keys_length.
  change (nvcategory.sorted_keys (str_forms y))
    with (nvcategory.keys (nvcategory.from_strings (str_forms y))).
  fold (in_range (nvcategory.from_strings (str_forms y)) z).
  split.
  - destruct (from_strings_codes (str_forms y)) as [R _].
    rewrite Forall_forall in R. apply R.
  - apply from_strings_dense.
Qed.

Lemma X5_witness :
  fst (fit_transform (PySeries int_labels) fresh)
  = Return (IntSeries int32 [0; 1; 0; 2])
  /\ (In 2 [0; 1; 0; 2]
      <-> 0 <= 2 < Z.of_nat (List.length
                    (nodup string_dec (str_forms int_labels)))).
Proof.
  assert (E : fst (fit_transform (PySeries int_labels) fresh)
              = Return (IntSeries int32 [0; 1; 0; 2])) by reflexivity.
  split; [exact E|].
  exact (X5_codes_are_dense int_labels fresh [0; 1; 0; 2] 2 E).
Defined.

Import Runs Methods MethodRuns Decoding Calls VocabularyFacts.

(** ** [transform] on labels of the vocabulary *)

(** X6: on a fitted encoder, [transform] of a Series all of whose labels
    are in the vocabulary returns one [int64] code per label, in order:
    the position of the label among the keys. *)
Theorem X6_transform_known_labels (w : world) (c : nvcategory.t)
    (y : Series) :
  reachable w -> fitted_with w c ->
  Forall (fun s => In s (nvcategory.keys c)) (str_forms y) ->
  exists codes l,
    transform (PySeries y) w = (Return (IntSeries int64 codes), logged w l)
    /\ List.length codes = List.length (str_forms y)
    /\ Forall (in_range c) codes
    /\ map (key_at c) codes = str_forms y.
Proof.
  intros R Hf Hin. rewrite (transform_known y w c R Hf Hin).
  destruct (known_codes c (str_forms y) Hin) as [Hr Hk].
  eexists _, _. split; [reflexivity|].
  split; [apply length_map|]. now split.
Qed.

Lemma X6_witness :
  reachable (fitted_world abcd)
  /\ fitted_with (fitted_world abcd)
       (nvcategory.from_strings (str_forms abcd))
  /\ Forall (fun s => In s (nvcategory.keys
                              (nvcategory.from_strings (str_forms abcd))))
       (str_forms (StrSeries ["c"; "a"]))
  /\ exists codes l,
       transform (PySeries (StrSeries ["c"; "a"])) (fitted_world abcd)
       = (Return (IntSeries int64 codes), logged (fitted_world abcd) l)
       /\ List.length codes = List.length (str_forms (StrSeries ["c"; "a"]))
       /\ Forall (in_range (nvcategory.from_strings (str_forms abcd))) codes
       /\ map (key_at (nvcategory.from_strings (str_forms abcd))) codes
          = str_forms (StrSeries ["c"; "a"]).
Proof.
  assert (R : reachable (fitted_world abcd))
    by apply reachable_fitted_world.
  assert (F : fitted_with (fitted_world abcd)
                (nvcategory.from_strings (str_forms abcd)))
    by (split; reflexivity).
  assert (K : Forall (fun s => In s (nvcategory.keys
                                (nvcategory.from_strings (str_forms abcd))))
                (str_forms (StrSeries ["c"; "a"])))
    by (repeat constructor; vm_compute; auto).
  split; [exact R|]. split; [exact F|]. split; [exact K|].
  exact (X6_transform_known_labels (fitted_world abcd) _
           (StrSeries ["c"; "a"]) R F K).
Defined.

(** ** What the calls leave alone *)

(** X7: [transform] and [inverse_transform] never write to the encoder:
    whatever the argument and whether they return or raise, vocabulary,
    dtype and fitted flag are afterwards what they were. *)
Theorem X7_transform_and_inverse_read_only (y : pyobj) (w : world) :
  self (snd (transform y w)) = self w
  /\ self (snd (inverse_transform y w)) = self w.
Proof.
  split; [apply preserves_transform | apply preserves_inverse_transform].
Qed.

(** X8: a fitted encoder stays fitted: no call, with any argument and
    whether it returns or raises, clears the fitted flag or removes the
    vocabulary. *)
Theorem X8_fitted_stays_fitted (c : call) (w : world) :
  _fitted (self w) = true ->
  _fitted (self (snd (do_call c w))) = true
  /\ (_cats (self w) <> None -> _cats (self (snd (do_call c w))) <> None).
Proof.
  intros F. rewrite do_call_snd.
  destruct c as [y|y|y|y];
    rewrite ?fit_self, ?fit_transform_self, ?preserves_transform,
      ?preserves_inverse_transform; try (split; [exact F | auto]).
  all: destruct y as [s|o]; cbn [after_fit];
    [ split; [reflexivity | discriminate] | ].
  all: destruct (f_dtype o); cbn [_fitted _cats]; split; auto.
Qed.

Lemma X8_witness :
  _fitted (self (fitted_world abcd)) = true
  /\ _fitted (self (snd (do_call (Fit dask_series) (fitted_world abcd))))
     = true
  /\ (_cats (self (fitted_world abcd)) <> None ->
      _cats (self (snd (do_call (Fit dask_series) (fitted_world abcd))))
      <> None).
Proof.
  split; [reflexivity|].
  exact (X8_fitted_stays_fitted (Fit dask_series) (fitted_world abcd)
           eq_refl).
Defined.

(** X9: every encoder a program can reach from [LabelEncoder()] that is
    fitted holds a vocabulary, whose keys have no duplicates, and a
    recorded dtype. *)
Theorem X9_reachable_fitted_invariant (w : world) :
  reachable w -> _fitted (self w) = true ->
  exists c d,
    _cats (self w) = Some c /\ _dtype (self w) = Some d
    /\ NoDup (nvcategory.keys c).
Proof.
  intros R F. destruct (reachable_fitted w R F) as (strs & d & Hc & Hd).
  exists (nvcategory.from_strings strs), d.
  split; [exact Hc|]. split; [exact Hd|]. apply from_strings_keys_NoDup.
Qed.

Lemma X9_witness :
  reachable (fitted_world int_labels)
  /\ _fitted (self (fitted_world int_labels)) = true
  /\ exists c d,
       _cats (self (fitted_world int_labels)) = Some c
       /\ _dtype (self (fitted_world int_labels)) = Some d
       /\ NoDup (nvcategory.keys c).
Proof.
  assert (R : reachable (fitted_world int_labels))
    by apply reachable_fitted_world.
  split; [exact R|]. split; [reflexivity|].
  exact (X9_reachable_fitted_invariant (fitted_world int_labels) R eq_refl).
Defined.

(** ** Decoding *)

(** X10: on a fitted encoder whose keys contain no digit,
    [inverse_transform] of any integer codes within the vocabulary
    returns, position by position, the key each code stands for, in a
    Series of the recorded dtype. *)
Theorem X10_decode_by_position (w : world) (c : nvcategory.t)
    (wd : int_dtype) (codes : list Z) :
  fitted_with w c ->
  digit_free (nvcategory.keys c) ->
  Forall (in_range c) codes ->
  exists l,
    inverse_transform (PySeries (IntSeries wd codes)) w
    = (Return (cudf.Series_of_strings (map (key_at c) codes)
                 (_dtype (self w))),
       logged w l).
Proof. apply inverse_transform_decodes. Qed.

Lemma X10_witness :
  fitted_with (fitted_world labels11)
    (nvcategory.from_strings (str_forms labels11))
  /\ digit_free (nvcategory.keys
                   (nvcategory.from_strings (str_forms labels11)))
  /\ Forall (in_range (nvcategory.from_strings (str_forms labels11)))
       [1; 10; 1; 0; 10]
  /\ exists l,
       inverse_transform (PySeries (IntSeries int64 [1; 10; 1; 0; 10]))
         (fitted_world labels11)
       = (Return (cudf.Series_of_strings
                    (map (key_at (nvcategory.from_strings
                                    (str_forms labels11)))
                       [1; 10; 1; 0; 10])
                    (_dtype (self (fitted_world labels11)))),
          logged (fitted_world labels11) l).
Proof.
  assert (F : fitted_with (fitted_world labels11)
                (nvcategory.from_strings (str_forms labels11)))
    by (split; reflexivity).
  assert (D : digit_free (nvcategory.keys
                            (nvcategory.from_strings (str_forms labels11))))
    by (vm_compute; repeat constructor).
  assert (R : Forall (in_range (nvcategory.from_strings
                                  (str_forms labels11)))
                [1; 10; 1; 0; 10])
    by (repeat constructor; vm_compute; congruence).
  split; [exact F|]. split; [exact D|]. split; [exact R|].
  exact (X10_decode_by_position (fitted_world labels11) _ int64
           [1; 10; 1; 0; 10] F D R).
Defined.

(** X11: whatever digits the keys contain, [inverse_transform] of
    integer codes that all lie within the vocabulary returns, with one
    value per code and the recorded dtype; only a code outside the
    vocabulary makes it raise. *)
Theorem X11_decode_returns_in_range (w : world) (c : nvcategory.t)
    (wd : int_dtype) (codes : list Z) :
  fitted_with w c ->
  Forall (in_range c) codes ->
  exists strs l,
    inverse_transform (PySeries (IntSeries wd codes)) w
    = (Return (cudf.Series_of_strings strs (_dtype (self w))), logged w l)
    /\ List.length strs = List.length codes.
Proof.
  intros Hf Hc. rewrite (inverse_transform_codes wd codes w c Hf).
  destruct (loop_returns c (sort_unique desc_Z codes)
              (pending_in_range c codes Hc) (map PyStr.str_int codes)
              (logged w [E_keys])) as (r & l & R).
  rewrite R, logged_logged. exists r, ([E_keys] ++ l).
  split; [reflexivity|].
  apply loop_length in R. now rewrite R, length_map.
Qed.

Lemma X11_witness :
  fitted_with (fitted_world int_labels)
    (nvcategory.from_strings (str_forms int_labels))
  /\ Forall (in_range (nvcategory.from_strings (str_forms int_labels)))
       [0; 1; 0; 2]
  /\ exists strs l,
       inverse_transform (PySeries (IntSeries int32 [0; 1; 0; 2]))
         (fitted_world int_labels)
       = (Return (cudf.Series_of_strings strs
                    (_dtype (self (fitted_world int_labels)))),
          logged (fitted_world int_labels) l)
       /\ List.length strs = List.length [0; 1; 0; 2].
Proof.
  assert (F : fitted_with (fitted_world int_labels)
                (nvcategory.from_strings (str_forms int_labels)))
    by (split; reflexivity).
  assert (R : Forall (in_range (nvcategory.from_strings
                                  (str_forms int_labels)))
                [0; 1; 0; 2])
    by (repeat constructor; vm_compute; congruence).
  split; [exact F|]. split; [exact R|].
  exact (X11_decode_returns_in_range (fitted_world int_labels) _ int32
           [0; 1; 0; 2] F R).
Defined.

Import Runs Methods MethodRuns Decoding Calls VocabularyFacts.

(** ** Round trips on a fitted encoder *)

(** X12: on a fitted encoder whose keys contain no digit, encoding
    labels of the vocabulary with [transform] and decoding the codes
    with [inverse_transform] gives the string forms of the labels back,
    in a Series of the recorded dtype. *)
Theorem X12_transform_then_inverse (w : world) (c : nvcategory.t)
    (y : Series) :
  reachable w -> fitted_with w c ->
  digit_free (nvcategory.keys c) ->
  Forall (fun s => In s (nvcategory.keys c)) (str_forms y) ->
  exists l,
    (codes <- transform (PySeries y) ;;
     inverse_transform (PySeries codes)) w
    = (Return (cudf.Series_of_strings (str_forms y) (_dtype (self w))),
       logged w l).
Proof.
  intros R Hf DF Hin. unfold bind.
  rewrite (transform_known y w c R Hf Hin).
  destruct (known_codes c (str_forms y) Hin) as [Hr Hk].
  destruct (inverse_transform_decodes
              (logged w [E_from_strings; E_keys; E_set_keys; E_values])
              c int64 _ (fitted_with_logged w c _ Hf) DF Hr) as (l & E).
  rewrite E, Hk, logged_logged. eexists. reflexivity.
Qed.

Lemma X12_witness :
  reachable (fitted_world abcd)
  /\ fitted_with (fitted_world abcd)
       (nvcategory.from_strings (str_forms abcd))
  /\ digit_free (nvcategory.keys (nvcategory.from_strings (str_forms abcd)))
  /\ Forall (fun s => In s (nvcategory.keys
                              (nvcategory.from_strings (str_forms abcd))))
       (str_forms (StrSeries ["d"; "b"; "d"]))
  /\ exists l,
       (codes <- transform (PySeries (StrSeries ["d"; "b"; "d"])) ;;
        inverse_transform (PySeries codes)) (fitted_world abcd)
       = (Return (cudf.Series_of_strings
                    (str_forms (StrSeries ["d"; "b"; "d"]))
                    (_dtype (self (fitted_world abcd)))),
          logged (fitted_world abcd) l).
Proof.
  assert (R : reachable (fitted_world abcd))
    by apply reachable_fitted_world.
  assert (F : fitted_with (fitted_world abcd)
                (nvcategory.from_strings (str_forms abcd)))
    by (split; reflexivity).
  assert (D : digit_free (nvcategory.keys
                            (nvcategory.from_strings (str_forms abcd))))
    by (vm_compute; repeat constructor).
  assert (K : Forall (fun s => In s (nvcategory.keys
                                (nvcategory.from_strings (str_forms abcd))))
                (str_forms (StrSeries ["d"; "b"; "d"])))
    by (repeat constructor; vm_compute; auto 6).
  split; [exact R|]. split; [exact F|]. split; [exact D|].
  split; [exact K|].
  exact (X12_transform_then_inverse (fitted_world abcd) _
           (StrSeries ["d"; "b"; "d"]) R F D K).
Defined.

(** X13: on an encoder fitted on strings none of which contains a digit,
    decoding integer codes within the vocabulary and encoding the result
    again gives the codes back, as [int64]. *)
Theorem X13_inverse_then_transform (w : world) (c : nvcategory.t)
    (wd : int_dtype) (codes : list Z) :
  reachable w -> fitted_with w c ->
  _dtype (self w) = Some object ->
  digit_free (nvcategory.keys c) ->
  Forall (in_range c) codes ->
  exists l,
    (labels <- inverse_transform (PySeries (IntSeries wd codes)) ;;
     transform (PySeries labels)) w
    = (Return (IntSeries int64 codes), logged w l).
Proof.
  intros R Hf Hd DF Hr. unfold bind.
  destruct (inverse_transform_decodes w c wd codes Hf DF Hr) as (l & E).
  rewrite E, Hd. cbn [cudf.Series_of_strings].
  destruct (reachable_keys w c R Hf) as [ND Fx].
  assert (Hin : Forall (fun s => In s (nvcategory.keys c))
                  (map (key_at c) codes)).
  { apply Forall_forall. intros s Hs.
    apply in_map_iff in Hs as (z & <- & Hz).
    rewrite Forall_forall in Hr. now apply key_at_nth, Hr. }
  destruct (transform_cases (StrSeries (map (key_at c) codes))
              (logged w l) c (fitted_with_logged w c l Hf))
    as [[_ T]|[Hex _]].
  - rewrite T, Fx, logged_logged. cbn [str_forms]. rewrite map_map.
    replace (map (fun z => nvcategory.key_index (key_at c z)
                             (nvcategory.keys c)) codes) with codes.
    + eexists. reflexivity.
    + transitivity (map (fun z : Z => z) codes); [symmetry; apply map_id|].
      apply map_ext_in. intros z Hz. symmetry.
      rewrite Forall_forall in Hr. now apply key_index_key_at, Hr.
  - exfalso. apply Exists_exists in Hex as (s & Hs & Hn).
    rewrite Forall_forall in Hin. exact (Hn (Hin s Hs)).
Qed.

Lemma X13_witness :
  reachable (fitted_world labels11)
  /\ fitted_with (fitted_world labels11)
       (nvcategory.from_strings (str_forms labels11))
  /\ _dtype (self (fitted_world labels11)) = Some object
  /\ digit_free (nvcategory.keys
                   (nvcategory.from_strings (str_forms labels11)))
  /\ Forall (in_range (nvcategory.from_strings (str_forms labels11)))
       [10; 1; 0; 10]
  /\ exists l,
       (labels <- inverse_transform
                    (PySeries (IntSeries int32 [10; 1; 0; 10])) ;;
        transform (PySeries labels)) (fitted_world labels11)
       = (Return (IntSeries int64 [10; 1; 0; 10]),
          logged (fitted_world labels11) l).
Proof.
  assert (R : reachable (fitted_world labels11))
    by apply reachable_fitted_world.
  assert (F : fitted_with (fitted_world labels11)
                (nvcategory.from_strings (str_forms labels11)))
    by (split; reflexivity).
  assert (T : _dtype (self (fitted_world labels11)) = Some object)
    by reflexivity.
  assert (D : digit_free (nvcategory.keys
                            (nvcategory.from_strings (str_forms labels11))))
    by (vm_compute; repeat constructor).
  assert (C : Forall (in_range (nvcategory.from_strings
                                  (str_forms labels11)))
                [10; 1; 0; 10])
    by (repeat constructor; vm_compute; congruence).
  split; [exact R|]. split; [exact F|]. split; [exact T|].
  split; [exact D|]. split; [exact C|].
  exact (X13_inverse_then_transform (fitted_world labels11) _ int32
           [10; 1; 0; 10] R F T D C).
Defined.

(** ** Arguments that are not a Series, and empty ones *)





(** X16: fitting on an empty Series is legal and gives an empty
    vocabulary, on which every non-empty [transform] raises [KeyError]
    and every non-empty [inverse_transform] of integer codes raises
    [ValueError]. *)
Theorem X16_empty_vocabulary (y0 y : Series) (wd : int_dtype)
    (codes : list Z) (w : world) :
  str_forms y0 = [] -> str_forms y <> [] -> codes <> [] ->
  fst (fit (PySeries y0) w) = Return tt
  /\ fitted_with (snd (fit (PySeries y0) w)) (nvcategory.mk [] [])
  /\ fst (transform (PySeries y) (snd (fit (PySeries y0) w)))
     = Raise (KeyError "Attempted to encode unseen key")
  /\ exists z,
       fst (inverse_transform (PySeries (IntSeries wd codes))
              (snd (fit (PySeries y0) w)))
       = Raise (ValueError (unseen_msg z))
       /\ In z codes.
Proof.
  intros E0 Ny Nc. rewrite fit_series. cbn [fst snd].
  set (w' := mkWorld (fitted_on y0) _).
  assert (Hf : fitted_with w' (nvcategory.mk [] [])).
  { split; [reflexivity|]. cbn [w' self fitted_on _cats].
    now rewrite E0. }
  split; [reflexivity|]. split; [exact Hf|]. split.
  - destruct (transform_cases y w' _ Hf) as [[Hin _]|[_ T]].
    + destruct (str_forms y) as [|s l]; [congruence|].
      inversion Hin as [|? ? I _]. destruct I.
    + now rewrite T.
  - destruct codes as [|z0 codes]; [congruence|].
    destruct (inverse_transform_unseen w' _ wd (z0 :: codes) z0 Hf)
      as (z & l & E & I & _).
    + now left.
    + unfold in_range. cbn. lia.
    + exists z. now rewrite E.
Qed.

Lemma X16_witness :
  str_forms (StrSeries []) = []
  /\ str_forms abcd <> []
  /\ [0] <> []
  /\ fst (fit (PySeries (StrSeries [])) fresh) = Return tt
  /\ fitted_with (snd (fit (PySeries (StrSeries [])) fresh))
       (nvcategory.mk [] [])
  /\ fst (transform (PySeries abcd)
            (snd (fit (PySeries (StrSeries [])) fresh)))
     = Raise (KeyError "Attempted to encode unseen key")
  /\ exists z,
       fst (inverse_transform (PySeries (IntSeries int32 [0]))
              (snd (fit (PySeries (StrSeries [])) fresh)))
       = Raise (ValueError (unseen_msg z))
       /\ In z [0].
Proof.
  assert (A : str_forms (StrSeries []) = []) by reflexivity.
  assert (B : str_forms abcd <> []) by discriminate.
  assert (C : [0] <> []) by discriminate.
  split; [exact A|]. split; [exact B|]. split; [exact C|].
  exact (X16_empty_vocabulary (StrSeries []) abcd int32 [0] fresh A B C).
Defined.

(** ** Which code the error names *)

(** X17: when [inverse_transform] raises for codes outside the
    vocabulary, the label its [ValueError] names is the highest such
    code of the argument. *)
Theorem X17_error_names_highest_unseen (w : world) (c : nvcategory.t)
    (wd : int_dtype) (codes : list Z) :
  fitted_with w c ->
  Exists (fun z => ~ in_range c z) codes ->
  exists z l,
    inverse_transform (PySeries (IntSeries wd codes)) w
    = (Raise (ValueError (unseen_msg z)), logged w l)
    /\ In z codes /\ ~ in_range c z
    /\ Forall (fun x => ~ in_range c x -> x <= z) codes.
Proof.
  intros Hf Hex. rewrite (inverse_transform_codes wd codes w c Hf).
  assert (Hex' : Exists (fun z => ~ in_range c z)
                   (sort_unique desc_Z codes)).
  { apply Exists_exists in Hex as (z & Hz & Ho).
    apply Exists_exists. exists z. split; [|exact Ho].
    now apply CodesFacts.desc_In. }
  destruct (loop_unseen_highest c _ (CodesFacts.desc_sorted codes) Hex'
              (map PyStr.str_int codes) (logged w [E_keys]))
    as (z & l & R & I & O & M).
  exists z, ([E_keys] ++ l). rewrite R, logged_logged.
  split; [reflexivity|].
  split; [exact (proj1 (CodesFacts.desc_In _ _) I)|].
  split; [exact O|].
  apply Forall_forall. intros x Hx. rewrite Forall_forall in M.
  apply M. now apply CodesFacts.desc_In.
Qed.

Lemma X17_witness :
  fitted_with (fitted_world abcd) (nvcategory.from_strings (str_forms abcd))
  /\ Exists (fun z => ~ in_range (nvcategory.from_strings (str_forms abcd)) z)
       [2; 7; -1; 5]
  /\ exists z l,
       inverse_transform (PySeries (IntSeries int32 [2; 7; -1; 5]))
         (fitted_world abcd)
       = (Raise (ValueError (unseen_msg z)), logged (fitted_world abcd) l)
       /\ In z [2; 7; -1; 5]
       /\ ~ in_range (nvcategory.from_strings (str_forms abcd)) z
       /\ Forall (fun x =>
                    ~ in_range (nvcategory.from_strings (str_forms abcd)) x ->
                    x <= z) [2; 7; -1; 5].
Proof.
  assert (F : fitted_with (fitted_world abcd)
                (nvcategory.from_strings (str_forms abcd)))
    by (split; reflexivity).
  assert (E : Exists (fun z => ~ in_range
                                 (nvcategory.from_strings (str_forms abcd)) z)
                [2; 7; -1; 5]).
  { right. left. unfold in_range. vm_compute. intros [_ H]. discriminate H. }
  split; [exact F|]. split; [exact E|].
  exact (X17_error_names_highest_unseen (fitted_world abcd) _ int32
           [2; 7; -1; 5] F E).
Defined.
